(** * Irrigation_System_1.0.ino: the duty-cycle control loop

    A shallow embedding of the sketch (STM32F103, DS3231 clock, SD card,
    capacitive moisture sensor, two relay lines) and the properties of its
    boot sequence [setup], its cycle [loop] and its formatter
    [get_time_stamp].

    The peripherals are not part of the sketch.  Every call the sketch makes
    on one of them is an [Event] of a trace; what the peripheral answers
    (clock found or not, the time read, the analog sample, a file opening or
    not) is an input of the run. *)

From Stdlib Require Import ZArith String Ascii List Lia Bool DecimalString.
Import ListNotations.

Local Open Scope string_scope.
Local Open Scope Z_scope.

Ltac Zify.zify_post_hook ::= Z.to_euclidean_division_equations.

(** ** Configuration constants (lines 39-45) *)

Definition moistureValue : Z := 20.
Definition sleepTime : Z := 1800000.
Definition irrigationTimeStart : Z := 19.
Definition irrigationTimeStop : Z := 7.
Definition valveOnTimer : Z := 30000.

(** ** Pins and levels *)

Inductive Pin : Type :=
| PA2 | PA4 | PA5 | PA6 | PA7 | PA15 | PB3 | LED_BUILTIN.

Definition MOSIpin : Pin := PA7.
Definition MISOpin : Pin := PA6.
Definition SCLKpin : Pin := PA5.
Definition chipSelect : Pin := PA4.
Definition moistureSensorPin : Pin := PA2.
Definition relayOutputPin1 : Pin := PA15.
Definition relayOutputPin2 : Pin := PB3.

Inductive Level : Type := LOW | HIGH.
Inductive PinMode : Type := INPUT | OUTPUT.

Definition Pin_eqb (p q : Pin) : bool :=
  match p, q with
  | PA2, PA2 | PA4, PA4 | PA5, PA5 | PA6, PA6 | PA7, PA7
  | PA15, PA15 | PB3, PB3 | LED_BUILTIN, LED_BUILTIN => true
  | _, _ => false
  end.

Definition Level_eqb (a b : Level) : bool :=
  match a, b with
  | LOW, LOW | HIGH, HIGH => true
  | _, _ => false
  end.

(** ** 32-bit [long] arithmetic and the core's [map] *)

Definition wrap32 (z : Z) : Z := (z + 2 ^ 31) mod 2 ^ 32 - 2 ^ 31.

Module Arduino.

(** Modelled from the spec: [map] is the Arduino core's range-mapping
    function, which the sketch calls on line 178 and does not define; the
    spec describes it as the linear mapping of the raw domain onto the
    percentage range that extrapolates rather than clamps.  The body is the
    core's
    [(x - in_min) * (out_max - out_min) / (in_max - in_min) + out_min]
    on [long] operands: each intermediate result lives in 32 bits and the
    division is C's, truncating toward zero ([Z.quot]). *)
Definition map (x in_min in_max out_min out_max : Z) : Z :=
  wrap32
    (wrap32
       (Z.quot (wrap32 (wrap32 (x - in_min) * wrap32 (out_max - out_min)))
               (wrap32 (in_max - in_min)))
     + out_min).

End Arduino.

(** [int moisture = map(sensorData, 1024, 467, 0, 100);] (line 178) *)
Definition moisture_of (sensorData : Z) : Z :=
  Arduino.map sensorData 1024 467 0 100.

(** Raw readings for which the 32-bit product of [map] stays in range; every
    resolution of the converter (at most 16 bits) lies well inside. *)
Definition raw_in_range (sensorData : Z) : Prop :=
  -21473812 <= sensorData <= 21475860.

(** ** The irrigation test (line 204) *)

Definition irrigation_due (moisture hour : Z) : bool :=
  (moisture <? moistureValue)
  && ((hour >=? irrigationTimeStart) || (hour <=? irrigationTimeStop)).

(** ** Time stamps (lines 233-238) *)

Record DateTime : Type := mkDateTime {
  year : Z; month : Z; day : Z; hour : Z; minute : Z; second : Z
}.

(** Calendar fields in their ranges, with a four-digit year. *)
Definition valid_time (t : DateTime) : Prop :=
  0 <= year t <= 9999 /\ 1 <= month t <= 12 /\ 1 <= day t <= 31 /\
  0 <= hour t <= 23 /\ 0 <= minute t <= 59 /\ 0 <= second t <= 59.

Definition String_of_int (z : Z) : string :=
  NilZero.string_of_int (Z.to_int z).

Fixpoint zeros (n : nat) : string :=
  match n with
  | O => EmptyString
  | S k => String "0" (zeros k)
  end.

(** [printf]'s [%0wd]: sign first, then zeros up to the width [w]. *)
Definition fmt_0d (w : nat) (z : Z) : string :=
  if z <? 0 then
    let d := String_of_int (- z) in
    String "-" (zeros (w - 1 - String.length d) ++ d)
  else
    let d := String_of_int z in
    zeros (w - String.length d) ++ d.

(** The characters of ["%04d-%02d-%02dT%02d:%02d:%02d"]. *)
Definition sprintf_time_stamp (time : DateTime) : string :=
  fmt_0d 4 (year time) ++ "-" ++ fmt_0d 2 (month time) ++ "-" ++
  fmt_0d 2 (day time) ++ "T" ++ fmt_0d 2 (hour time) ++ ":" ++
  fmt_0d 2 (minute time) ++ ":" ++ fmt_0d 2 (second time).

(** A character array after [sprintf]: the characters produced, and how many
    of the bytes written (the terminating NUL included) fall past the end of
    the array. *)
Record CharArray : Type := mkCharArray {
  chars : string;
  overrun : nat
}.

Definition sprintf_into (size : nat) (s : string) : CharArray :=
  {| chars := s; overrun := (String.length s + 1) - size |}.

(** [char tempString [18]] *)
Definition tempString_size : nat := 18.

Definition get_time_stamp (time : DateTime) : CharArray :=
  sprintf_into tempString_size (sprintf_time_stamp time).

(** ** Calls on the peripherals *)

(** A [File] object of the SD library: the name it was opened under and
    whether the opening succeeded (what [if (logFile)] tests). *)
Record File : Type := mkFile {
  file_name : string;
  is_open : bool
}.

Inductive Event : Type :=
| EPinMode (p : Pin) (m : PinMode)
| EDigitalWrite (p : Pin) (l : Level)
| ELowPowerBegin
| ESpiSetMOSI (p : Pin)
| ESpiSetMISO (p : Pin)
| ESpiSetSCLK (p : Pin)
| ESpiSetSSEL (p : Pin)
| ESerialBegin (baud : Z)
| ESerialPrint (s : string)
| ESerialPrintln (s : string)
| EDelay (ms : Z)
| ESdBegin (cs : Pin) (ok : bool)
| ESdOpen (f : File)
| EFilePrintln (f : File) (s : string)
| EFileClose (f : File)
| EWireBegin
| ERtcBegin (ok : bool)
| ERtcNow (t : DateTime)
| ERtcGetTemperature (v : Z)
| EAnalogRead (p : Pin) (v : Z)
| ELowPowerShutdown (ms : Z)
| ELowPowerDeepSleep (ms : Z).

(** ** Sequencing: a trace of calls, and whether control comes back

    [setup] and [loop] either return to the core's [main], or enter
    [while(1){ LowPower.shutdown(3000000); }] and never return. *)

Inductive Flow (A : Type) : Type :=
| Returns (a : A)
| NeverReturns.
Arguments Returns {A} a.
Arguments NeverReturns {A}.

Definition M (A : Type) : Type := (list Event * Flow A)%type.

Definition ret {A : Type} (a : A) : M A := ([], Returns a).

Definition bind {A B : Type} (c : M A) (k : A -> M B) : M B :=
  match c with
  | (tr, Returns a) => let (tr', r) := k a in ((tr ++ tr')%list, r)
  | (tr, NeverReturns) => (tr, NeverReturns)
  end.

Notation "x <- c ;; k" := (bind c (fun x => k))
  (at level 61, c at next level, right associativity).
Notation "c ;; k" := (bind c (fun _ => k))
  (at level 61, right associativity).

Definition emit (e : Event) : M unit := ([e], Returns tt).

(** Entry of the endless [while(1)]; its iterations are the rounds of a
    machine in [ShutdownLoop] (see [round]). *)
Definition shutdown_forever {A : Type} : M A := ([], NeverReturns).
Definition shutdown_chunk : Z := 3000000.

Definition pinMode (p : Pin) (m : PinMode) : M unit := emit (EPinMode p m).
Definition digitalWrite (p : Pin) (l : Level) : M unit :=
  emit (EDigitalWrite p l).
Definition delay (ms : Z) : M unit := emit (EDelay ms).
Definition Serial_print (s : string) : M unit := emit (ESerialPrint s).
Definition Serial_println (s : string) : M unit := emit (ESerialPrintln s).
Definition SD_begin (cs : Pin) (answer : bool) : M bool :=
  emit (ESdBegin cs answer) ;; ret answer.
Definition SD_open (name : string) (answer : bool) : M File :=
  let f := mkFile name answer in emit (ESdOpen f) ;; ret f.
Definition File_println (f : File) (s : string) : M unit :=
  emit (EFilePrintln f s).
Definition File_close (f : File) : M unit := emit (EFileClose f).
Definition rtc_begin (answer : bool) : M bool :=
  emit (ERtcBegin answer) ;; ret answer.
Definition rtc_now (answer : DateTime) : M DateTime :=
  emit (ERtcNow answer) ;; ret answer.
Definition rtc_getTemperature (answer : Z) : M Z :=
  emit (ERtcGetTemperature answer) ;; ret answer.
Definition analogRead (p : Pin) (answer : Z) : M Z :=
  emit (EAnalogRead p answer) ;; ret answer.
Definition LowPower_deepSleep (ms : Z) : M unit :=
  emit (ELowPowerDeepSleep ms).

Definition when (b : bool) (c : M unit) : M unit :=
  if b then c else ret tt.

(** ** [setup] (lines 78-145) *)

Record BootInputs : Type := mkBootInputs {
  boot_sd_ok : bool;          (* SD.begin(chipSelect) *)
  boot_log_opens : bool;      (* SD.open("log.csv", FILE_WRITE) *)
  boot_rtc_ok : bool;         (* rtc.begin() *)
  boot_now : DateTime         (* rtc.now() *)
}.

Definition setup (i : BootInputs) : M unit :=
  pinMode relayOutputPin1 OUTPUT ;;
  digitalWrite relayOutputPin1 LOW ;;
  pinMode relayOutputPin2 OUTPUT ;;
  digitalWrite relayOutputPin2 LOW ;;
  emit ELowPowerBegin ;;
  pinMode chipSelect OUTPUT ;;
  emit (ESpiSetMOSI MOSIpin) ;;
  emit (ESpiSetMISO MISOpin) ;;
  emit (ESpiSetSCLK SCLKpin) ;;
  emit (ESpiSetSSEL chipSelect) ;;
  emit (ESerialBegin 38400) ;;
  delay 1000 ;;
  Serial_print "Initializing SD card..." ;;
  sd <- SD_begin chipSelect (boot_sd_ok i) ;;
  (if negb sd then Serial_println "Card failed, or not present"
   else Serial_println "card initialized.") ;;
  logFile <- SD_open "log.csv" (boot_log_opens i) ;;
  emit EWireBegin ;;
  rtc <- rtc_begin (boot_rtc_ok i) ;;
  when (negb rtc)
    (Serial_println "Couldn't find RTC" ;;
     (if is_open logFile
      then File_println logFile "Could not find RTC. Shutting down."
      else Serial_println "Could not open log file") ;;
     delay 500 ;;
     shutdown_forever) ;;
  pinMode LED_BUILTIN OUTPUT ;;
  pinMode moistureSensorPin INPUT ;;
  t <- rtc_now (boot_now i) ;;
  File_println logFile (" Setup complete! " ++ chars (get_time_stamp t)) ;;
  File_close logFile.

(** ** [loop] (lines 147-231) *)

Record CycleInputs : Type := mkCycleInputs {
  sd_ok : bool;               (* SD.begin(chipSelect) *)
  now_wake : DateTime;        (* rtc.now() on line 157 *)
  sensor_raw : Z;             (* analogRead(moistureSensorPin) *)
  temperature : Z;            (* rtc.getTemperature(), converted to int *)
  data_opens : bool;          (* SD.open("datalog.csv", FILE_WRITE) *)
  log_opens : bool;           (* SD.open("log.csv", FILE_WRITE) *)
  now_off_console : DateTime; (* rtc.now() on line 219 *)
  now_off_log : DateTime      (* rtc.now() on line 222 *)
}.

Definition rtc_fault_message : string :=
  "There was an error with the RTC. Reset device to retry. Shutting down...".

Definition loop (i : CycleInputs) : M unit :=
  sd <- SD_begin chipSelect (sd_ok i) ;;
  when (negb sd) (Serial_println "Card failed, or not present") ;;
  digitalWrite LED_BUILTIN LOW ;;
  now <- rtc_now (now_wake i) ;;
  let timeStamp := chars (get_time_stamp now) in
  when ((year now <? 2010) || (year now >? 2100))
    (Serial_println rtc_fault_message ;;
     logFile <- SD_open "log.csv" (log_opens i) ;;
     File_println logFile rtc_fault_message ;;
     digitalWrite LED_BUILTIN HIGH ;;
     File_close logFile ;;
     delay 1000 ;;
     shutdown_forever) ;;
  Serial_println (timeStamp ++ " Woke up") ;;
  sensorData <- analogRead moistureSensorPin (sensor_raw i) ;;
  let moisture := Arduino.map sensorData 1024 467 0 100 in
  temp <- rtc_getTemperature (temperature i) ;;
  let fileLine :=
    timeStamp ++ ", " ++ String_of_int moisture ++ "("
    ++ String_of_int sensorData ++ ")" ++ ", " ++ String_of_int temp in
  dataFile <- SD_open "datalog.csv" (data_opens i) ;;
  (if is_open dataFile then
     File_println dataFile fileLine ;;
     Serial_println fileLine ;;
     File_close dataFile
   else
     Serial_println "error opening datalog.csv" ;;
     Serial_println fileLine) ;;
  when (irrigation_due moisture (hour now))
    (logFile <- SD_open "log.csv" (log_opens i) ;;
     when (is_open logFile)
       (File_println logFile (timeStamp ++ " Valve on")) ;;
     Serial_println (timeStamp ++ " Valve on") ;;
     digitalWrite relayOutputPin1 HIGH ;;
     digitalWrite relayOutputPin2 HIGH ;;
     delay valveOnTimer ;;
     digitalWrite relayOutputPin1 LOW ;;
     digitalWrite relayOutputPin2 LOW ;;
     t_off <- rtc_now (now_off_console i) ;;
     Serial_println (chars (get_time_stamp t_off) ++ " Valve off") ;;
     when (is_open logFile)
       (t_log <- rtc_now (now_off_log i) ;;
        File_println logFile (chars (get_time_stamp t_log) ++ " Valve off") ;;
        File_close logFile)) ;;
  Serial_println "going to sleep" ;;
  Serial_println EmptyString ;;
  delay 500 ;;
  LowPower_deepSleep sleepTime ;;
  delay 500.

(** ** The running sketch: [setup(); for (;;) loop();]

    A round is one call of [loop], or, once a [while(1)] has been entered,
    one of its iterations. *)

Inductive Control : Type := Cycling | ShutdownLoop.

Record Machine : Type := mkMachine {
  control : Control;
  cycle_no : nat;
  trace : list Event
}.

Definition control_after {A : Type} (f : Flow A) : Control :=
  match f with
  | Returns _ => Cycling
  | NeverReturns => ShutdownLoop
  end.

Definition boot_machine (b : BootInputs) : Machine :=
  let (tr, f) := setup b in
  {| control := control_after f; cycle_no := O; trace := tr |}.

(** The calls made by one round from machine [m]. *)
Definition round_events (cyc : nat -> CycleInputs) (m : Machine) : list Event :=
  match control m with
  | ShutdownLoop => [ELowPowerShutdown shutdown_chunk]
  | Cycling => fst (loop (cyc (cycle_no m)))
  end.

Definition round (cyc : nat -> CycleInputs) (m : Machine) : Machine :=
  match control m with
  | ShutdownLoop =>
      {| control := ShutdownLoop; cycle_no := cycle_no m;
         trace := (trace m ++ round_events cyc m)%list |}
  | Cycling =>
      {| control := control_after (snd (loop (cyc (cycle_no m))));
         cycle_no := S (cycle_no m);
         trace := (trace m ++ round_events cyc m)%list |}
  end.

Fixpoint run (b : BootInputs) (cyc : nat -> CycleInputs) (n : nat) : Machine :=
  match n with
  | O => boot_machine b
  | S k => round cyc (run b cyc k)
  end.

(** ** Observations on traces *)

Definition year_plausible (t : DateTime) : bool :=
  negb ((year t <? 2010) || (year t >? 2100)).

Definition is_relay (p : Pin) : bool :=
  Pin_eqb p relayOutputPin1 || Pin_eqb p relayOutputPin2.

(** The writes on the two relay lines, in order. *)
Fixpoint relay_writes (tr : list Event) : list (Pin * Level) :=
  match tr with
  | [] => []
  | EDigitalWrite p l :: rest =>
      if is_relay p then (p, l) :: relay_writes rest else relay_writes rest
  | _ :: rest => relay_writes rest
  end.

(** The relay writes come in pairs: line 1, then line 2 at the same level. *)
Fixpoint driven_together (ws : list (Pin * Level)) : bool :=
  match ws with
  | [] => true
  | (p, l) :: ws1 =>
      match ws1 with
      | [] => false
      | (q, l') :: rest =>
          Pin_eqb p relayOutputPin1 && Pin_eqb q relayOutputPin2
          && Level_eqb l l' && driven_together rest
      end
  end.

(** Levels of the two relay lines.  [loop] writes [HIGH] between its
    "Valve on" and "Valve off" messages: [HIGH] is the level at which the
    sketch holds the valve open, [LOW] the one at which it holds it shut. *)
Definition Relays : Type := (Level * Level)%type.

Definition relays_step (st : Relays) (e : Event) : Relays :=
  match e with
  | EDigitalWrite PA15 l => (l, snd st)
  | EDigitalWrite PB3 l => (fst st, l)
  | _ => st
  end.

Definition relays_after (st : Relays) (tr : list Event) : Relays :=
  fold_left relays_step tr st.

Definition both_low (st : Relays) : bool :=
  Level_eqb (fst st) LOW && Level_eqb (snd st) LOW.

Definition is_sleep (e : Event) : bool :=
  match e with
  | ELowPowerDeepSleep _ | ELowPowerShutdown _ => true
  | _ => false
  end.

(** Every low-power sleep of the trace begins with both relay lines [LOW]. *)
Fixpoint closed_at_sleeps (st : Relays) (tr : list Event) : bool :=
  match tr with
  | [] => true
  | e :: rest =>
      (if is_sleep e then both_low st else true)
      && closed_at_sleeps (relays_step st e) rest
  end.

(** The lines appended to the file [name]: [println] through a handle that
    did not open writes nothing. *)
Fixpoint file_lines (name : string) (tr : list Event) : list string :=
  match tr with
  | [] => []
  | EFilePrintln f s :: rest =>
      if String.eqb (file_name f) name && is_open f
      then s :: file_lines name rest
      else file_lines name rest
  | _ :: rest => file_lines name rest
  end.

(** Sampling, appending a data record, or driving a relay line. *)
Definition cycle_work (e : Event) : bool :=
  match e with
  | EAnalogRead _ _ | ERtcGetTemperature _ => true
  | EFilePrintln f _ => String.eqb (file_name f) "datalog.csv"
  | EDigitalWrite p _ => is_relay p
  | _ => false
  end.

(** The valve hold: relay writes and the blocking delay between them. *)
Definition is_actuation (e : Event) : bool :=
  match e with
  | EDigitalWrite p _ => is_relay p
  | EDelay ms => ms =? valveOnTimer
  | _ => false
  end.

Definition writes_through_open_handle (e : Event) : bool :=
  match e with
  | EFilePrintln f _ => is_open f
  | _ => true
  end.

(** ** Shape of a time stamp and of an event line *)

Definition is_digit (c : ascii) : bool :=
  let n := nat_of_ascii c in (48 <=? n)%nat && (n <=? 57)%nat.

Fixpoint matches (pattern s : string) : bool :=
  match pattern, s with
  | EmptyString, EmptyString => true
  | String p pattern', String c s' =>
      (if Ascii.eqb p "d" then is_digit c else Ascii.eqb p c)
      && matches pattern' s'
  | _, _ => false
  end.

(** [YYYY-MM-DDTHH:MM:SS], nineteen characters. *)
Definition is_time_stamp (s : string) : bool :=
  matches "dddd-dd-ddTdd:dd:dd" s.

(** [<time stamp> <event text>]: the time stamp first, then a space. *)
Definition event_form (line : string) : bool :=
  is_time_stamp (substring 0 19 line)
  && match get 19 line with
     | Some c => Ascii.eqb c " "
     | None => false
     end.

(** ** The calls of [setup] and [loop], phase by phase *)

Definition logFile_of (opens : bool) : File := mkFile "log.csv" opens.
Definition dataFile_of (opens : bool) : File := mkFile "datalog.csv" opens.

Definition relay_init_events : list Event :=
  [EPinMode relayOutputPin1 OUTPUT; EDigitalWrite relayOutputPin1 LOW;
   EPinMode relayOutputPin2 OUTPUT; EDigitalWrite relayOutputPin2 LOW].

Definition bus_init_events (b : BootInputs) : list Event :=
  [ELowPowerBegin; EPinMode chipSelect OUTPUT;
   ESpiSetMOSI MOSIpin; ESpiSetMISO MISOpin; ESpiSetSCLK SCLKpin;
   ESpiSetSSEL chipSelect; ESerialBegin 38400; EDelay 1000;
   ESerialPrint "Initializing SD card...";
   ESdBegin chipSelect (boot_sd_ok b);
   ESerialPrintln (if boot_sd_ok b then "card initialized."
                   else "Card failed, or not present");
   ESdOpen (logFile_of (boot_log_opens b));
   EWireBegin;
   ERtcBegin (boot_rtc_ok b)].

Definition rtc_missing_events (b : BootInputs) : list Event :=
  [ESerialPrintln "Couldn't find RTC";
   if boot_log_opens b
   then EFilePrintln (logFile_of true) "Could not find RTC. Shutting down."
   else ESerialPrintln "Could not open log file";
   EDelay 500].

Definition setup_complete_line (t : DateTime) : string :=
  " Setup complete! " ++ chars (get_time_stamp t).

Definition setup_complete_events (b : BootInputs) : list Event :=
  [EPinMode LED_BUILTIN OUTPUT; EPinMode moistureSensorPin INPUT;
   ERtcNow (boot_now b);
   EFilePrintln (logFile_of (boot_log_opens b))
                (setup_complete_line (boot_now b));
   EFileClose (logFile_of (boot_log_opens b))].

Definition wake_events (i : CycleInputs) : list Event :=
  (ESdBegin chipSelect (sd_ok i)
   :: (if sd_ok i then []
       else [ESerialPrintln "Card failed, or not present"]))
  ++ [EDigitalWrite LED_BUILTIN LOW; ERtcNow (now_wake i)].

Definition rtc_fault_events (i : CycleInputs) : list Event :=
  [ESerialPrintln rtc_fault_message;
   ESdOpen (logFile_of (log_opens i));
   EFilePrintln (logFile_of (log_opens i)) rtc_fault_message;
   EDigitalWrite LED_BUILTIN HIGH;
   EFileClose (logFile_of (log_opens i));
   EDelay 1000].

Definition timeStamp_of (i : CycleInputs) : string :=
  chars (get_time_stamp (now_wake i)).

Definition fileLine_of (i : CycleInputs) : string :=
  timeStamp_of i ++ ", " ++ String_of_int (moisture_of (sensor_raw i)) ++ "("
  ++ String_of_int (sensor_raw i) ++ ")" ++ ", "
  ++ String_of_int (temperature i).

Definition sample_events (i : CycleInputs) : list Event :=
  [ESerialPrintln (timeStamp_of i ++ " Woke up");
   EAnalogRead moistureSensorPin (sensor_raw i);
   ERtcGetTemperature (temperature i);
   ESdOpen (dataFile_of (data_opens i))]
  ++ (if data_opens i
      then [EFilePrintln (dataFile_of true) (fileLine_of i);
            ESerialPrintln (fileLine_of i);
            EFileClose (dataFile_of true)]
      else [ESerialPrintln "error opening datalog.csv";
            ESerialPrintln (fileLine_of i)]).

Definition valve_hold_events : list Event :=
  [EDigitalWrite relayOutputPin1 HIGH; EDigitalWrite relayOutputPin2 HIGH;
   EDelay valveOnTimer;
   EDigitalWrite relayOutputPin1 LOW; EDigitalWrite relayOutputPin2 LOW].

Definition valve_on_line (i : CycleInputs) : string :=
  timeStamp_of i ++ " Valve on".
Definition valve_off_line (t : DateTime) : string :=
  chars (get_time_stamp t) ++ " Valve off".

Definition valve_events (i : CycleInputs) : list Event :=
  (ESdOpen (logFile_of (log_opens i))
   :: (if log_opens i
       then [EFilePrintln (logFile_of true) (valve_on_line i)]
       else []))
  ++ [ESerialPrintln (valve_on_line i)]
  ++ valve_hold_events
  ++ [ERtcNow (now_off_console i);
      ESerialPrintln (valve_off_line (now_off_console i))]
  ++ (if log_opens i
      then [ERtcNow (now_off_log i);
            EFilePrintln (logFile_of true) (valve_off_line (now_off_log i));
            EFileClose (logFile_of true)]
      else []).

Definition sleep_events : list Event :=
  [ESerialPrintln "going to sleep"; ESerialPrintln EmptyString; EDelay 500;
   ELowPowerDeepSleep sleepTime; EDelay 500].

(** Whether cycle [i] opens the valve. *)
Abbreviation irrigates i :=
  (irrigation_due (moisture_of (sensor_raw i)) (hour (now_wake i))).

Definition cycle_events (i : CycleInputs) : list Event :=
  (wake_events i ++ sample_events i
   ++ (if irrigates i then valve_events i else [])
   ++ sleep_events)%list.

(** The relay writes of one valve hold. *)
Definition hold_writes : list (Pin * Level) :=
  [(relayOutputPin1, HIGH); (relayOutputPin2, HIGH);
   (relayOutputPin1, LOW); (relayOutputPin2, LOW)].

(** Whether some relay line is written [HIGH]. *)
Definition valve_opens (tr : list Event) : bool :=
  existsb (fun e => match e with
                    | EDigitalWrite p HIGH => is_relay p
                    | _ => false
                    end) tr.

(** Bounded check of a boolean property on [0, n). *)
Fixpoint all_below (n : nat) (P : Z -> bool) : bool :=
  match n with
  | O => true
  | S k => P (Z.of_nat k) && all_below k P
  end.

(** ** Sample inputs *)

(** A boot with a card, a log file and a clock. *)
Definition boot_fine : BootInputs :=
  {| boot_sd_ok := true; boot_log_opens := true; boot_rtc_ok := true;
     boot_now := mkDateTime 2021 3 9 19 5 3 |}.

(** A boot without a clock, its log file open. *)
Definition boot_no_clock_logged : BootInputs :=
  {| boot_sd_ok := true; boot_log_opens := true; boot_rtc_ok := false;
     boot_now := mkDateTime 2021 3 9 19 5 3 |}.

(** A boot without a clock and without a log file. *)
Definition boot_no_clock : BootInputs :=
  {| boot_sd_ok := true; boot_log_opens := false; boot_rtc_ok := false;
     boot_now := mkDateTime 2021 3 9 19 5 3 |}.

(** A cycle at hour [h] of 2021-03-09 whose raw sample 968 maps to 10%. *)
Definition cycle_at (h : Z) : CycleInputs :=
  {| sd_ok := true; now_wake := mkDateTime 2021 3 9 h 5 3;
     sensor_raw := 968; temperature := 21;
     data_opens := true; log_opens := true;
     now_off_console := mkDateTime 2021 3 9 h 5 33;
     now_off_log := mkDateTime 2021 3 9 h 5 33 |}.

(** A cycle whose clock reads the year 2000. *)
Definition cycle_year_2000 : CycleInputs :=
  {| sd_ok := true; now_wake := mkDateTime 2000 1 1 0 0 0;
     sensor_raw := 900; temperature := 21;
     data_opens := true; log_opens := true;
     now_off_console := mkDateTime 2000 1 1 0 0 30;
     now_off_log := mkDateTime 2000 1 1 0 0 30 |}.

(** A cycle inside the window, on dry soil, with no card in the slot. *)
Definition cycle_no_card : CycleInputs :=
  {| sd_ok := false; now_wake := mkDateTime 2021 3 9 20 0 0;
     sensor_raw := 968; temperature := 21;
     data_opens := false; log_opens := false;
     now_off_console := mkDateTime 2021 3 9 20 0 30;
     now_off_log := mkDateTime 2021 3 9 20 0 30 |}.

(** ** Further observations on traces *)

(** The low-power calls of a trace, in order. *)
Definition sleeps_of (tr : list Event) : list Event := filter is_sleep tr.

(** Number of [File] handles that opened and are not closed yet. *)
Definition handles_step (n : nat) (e : Event) : nat :=
  match e with
  | ESdOpen f => if is_open f then S n else n
  | EFileClose f => if is_open f then Nat.pred n else n
  | _ => n
  end.

Definition handles_after (n : nat) (tr : list Event) : nat :=
  fold_left handles_step tr n.

(** No handle is open when [SD.open] is called or a deep sleep begins
    (lines 184-185: only one file can be open at a time). *)
Fixpoint one_handle (n : nat) (tr : list Event) : bool :=
  match tr with
  | [] => true
  | e :: rest =>
      (match e with
       | ESdOpen _ | ELowPowerDeepSleep _ => Nat.eqb n 0
       | _ => true
       end)
      && one_handle (handles_step n e) rest
  end.

Definition is_close (e : Event) : bool :=
  match e with
  | EFileClose _ => true
  | _ => false
  end.

(** What has been set up so far: the [pinMode] calls (latest first) and the
    [begin] calls made. *)
Record Board : Type := mkBoard {
  pin_modes : list (Pin * PinMode);
  lowpower_begun : bool;
  serial_begun : bool;
  sd_begun : bool;
  wire_begun : bool;
  rtc_found : bool
}.

Definition power_on : Board :=
  {| pin_modes := []; lowpower_begun := false; serial_begun := false;
     sd_begun := false; wire_begun := false; rtc_found := false |}.

Fixpoint mode_of (ms : list (Pin * PinMode)) (p : Pin) : option PinMode :=
  match ms with
  | [] => None
  | (q, m) :: rest => if Pin_eqb p q then Some m else mode_of rest p
  end.

Definition board_step (b : Board) (e : Event) : Board :=
  match e with
  | EPinMode p m =>
      {| pin_modes := (p, m) :: pin_modes b;
         lowpower_begun := lowpower_begun b; serial_begun := serial_begun b;
         sd_begun := sd_begun b; wire_begun := wire_begun b;
         rtc_found := rtc_found b |}
  | ELowPowerBegin =>
      {| pin_modes := pin_modes b;
         lowpower_begun := true; serial_begun := serial_begun b;
         sd_begun := sd_begun b; wire_begun := wire_begun b;
         rtc_found := rtc_found b |}
  | ESerialBegin _ =>
      {| pin_modes := pin_modes b;
         lowpower_begun := lowpower_begun b; serial_begun := true;
         sd_begun := sd_begun b; wire_begun := wire_begun b;
         rtc_found := rtc_found b |}
  | ESdBegin _ _ =>
      {| pin_modes := pin_modes b;
         lowpower_begun := lowpower_begun b; serial_begun := serial_begun b;
         sd_begun := true; wire_begun := wire_begun b;
         rtc_found := rtc_found b |}
  | EWireBegin =>
      {| pin_modes := pin_modes b;
         lowpower_begun := lowpower_begun b; serial_begun := serial_begun b;
         sd_begun := sd_begun b; wire_begun := true;
         rtc_found := rtc_found b |}
  | ERtcBegin ok =>
      {| pin_modes := pin_modes b;
         lowpower_begun := lowpower_begun b; serial_begun := serial_begun b;
         sd_begun := sd_begun b; wire_begun := wire_begun b;
         rtc_found := ok |}
  | _ => b
  end.

Definition board_after (b : Board) (tr : list Event) : Board :=
  fold_left board_step tr b.

(** Whether the call [e] finds what it uses set up: a written pin is an
    output, a sampled pin an input, the serial port, the card library, the
    I2C bus and the low-power library have begun, the clock has been found. *)
Definition set_up_for (b : Board) (e : Event) : bool :=
  match e with
  | EDigitalWrite p _ =>
      match mode_of (pin_modes b) p with Some OUTPUT => true | _ => false end
  | EAnalogRead p _ =>
      match mode_of (pin_modes b) p with Some INPUT => true | _ => false end
  | ESerialPrint _ | ESerialPrintln _ => serial_begun b
  | ESdOpen _ => sd_begun b
  | ERtcBegin _ => wire_begun b
  | ERtcNow _ | ERtcGetTemperature _ => rtc_found b
  | ELowPowerShutdown _ | ELowPowerDeepSleep _ => lowpower_begun b
  | _ => true
  end.

Fixpoint set_up_before_use (b : Board) (tr : list Event) : bool :=
  match tr with
  | [] => true
  | e :: rest => set_up_for b e && set_up_before_use (board_step b e) rest
  end.

(** The board once [setup] has returned. *)
Definition board_ready : Board :=
  {| pin_modes := [(moistureSensorPin, INPUT); (LED_BUILTIN, OUTPUT);
                   (chipSelect, OUTPUT); (relayOutputPin2, OUTPUT);
                   (relayOutputPin1, OUTPUT)];
     lowpower_begun := true; serial_begun := true; sd_begun := true;
     wire_begun := true; rtc_found := true |}.

(** Whether the fault indicator is written [HIGH]. *)
Definition led_lit (tr : list Event) : bool :=
  existsb (fun e => match e with
                    | EDigitalWrite LED_BUILTIN HIGH => true
                    | _ => false
                    end) tr.

(** The lines printed on the console with [Serial.println]. *)
Fixpoint console_lines (tr : list Event) : list string :=
  match tr with
  | [] => []
  | ESerialPrintln s :: rest => s :: console_lines rest
  | _ :: rest => console_lines rest
  end.

(** What a returning cycle prints with [Serial.println]. *)
Definition woke_up_line (i : CycleInputs) : string :=
  timeStamp_of i ++ " Woke up".

Definition cycle_console (i : CycleInputs) : list string :=
  ((if sd_ok i then [] else ["Card failed, or not present"])
   ++ [woke_up_line i]
   ++ (if data_opens i then [] else ["error opening datalog.csv"])
   ++ [fileLine_of i]
   ++ (if irrigates i
       then [valve_on_line i; valve_off_line (now_off_console i)] else [])
   ++ ["going to sleep"; EmptyString])%list.

(** Milliseconds spent in [delay] and in low-power sleeps. *)
Fixpoint blocking_ms (tr : list Event) : Z :=
  match tr with
  | [] => 0
  | EDelay ms :: rest => ms + blocking_ms rest
  | ELowPowerDeepSleep ms :: rest => ms + blocking_ms rest
  | ELowPowerShutdown ms :: rest => ms + blocking_ms rest
  | _ :: rest => blocking_ms rest
  end.

(** Value of a string of decimal digits, most significant first. *)
Fixpoint digits_value (acc : Z) (s : string) : Z :=
  match s with
  | EmptyString => acc
  | String c s' =>
      digits_value (10 * acc + (Z.of_nat (nat_of_ascii c) - 48)) s'
  end.

(** The records a run of cycles appends to datalog.csv and the lines it
    appends to log.csv, cycle by cycle. *)
Definition datalog_of (i : CycleInputs) : list string :=
  if data_opens i then [fileLine_of i] else [].

Definition valve_log_of (i : CycleInputs) : list string :=
  if irrigates i && log_opens i
  then [valve_on_line i; valve_off_line (now_off_log i)] else [].

(** A run of cycles in the window, the soil dry, the card gone after boot. *)
Definition cycle_card_gone (k : nat) : CycleInputs :=
  {| sd_ok := false; now_wake := mkDateTime 2021 3 9 20 (Z.of_nat k) 0;
     sensor_raw := 968; temperature := 21;
     data_opens := false; log_opens := false;
     now_off_console := mkDateTime 2021 3 9 20 (Z.of_nat k) 30;
     now_off_log := mkDateTime 2021 3 9 20 (Z.of_nat k) 30 |}.

(** * Proofs *)

Ltac run_sketch :=
  cbv [setup loop bind when ret emit shutdown_forever pinMode digitalWrite
       delay Serial_print Serial_println SD_begin SD_open File_println
       File_close rtc_begin rtc_now rtc_getTemperature analogRead
       LowPower_deepSleep negb is_open app fst snd].

Ltac unfold_phases :=
  cbv [cycle_events wake_events rtc_fault_events sample_events valve_events
       valve_hold_events sleep_events relay_init_events bus_init_events
       rtc_missing_events setup_complete_events setup_complete_line
       valve_on_line valve_off_line timeStamp_of fileLine_of
       moisture_of logFile_of dataFile_of app].

(** ** What [setup] and [loop] do, case by case *)

Lemma setup_rtc_missing (b : BootInputs) :
  boot_rtc_ok b = false ->
  setup b =
  ((relay_init_events ++ bus_init_events b ++ rtc_missing_events b)%list,
   NeverReturns).
Proof.
  destruct b as [sd lop rtc t]; cbn [boot_rtc_ok]; intros ->.
  unfold setup.
  cbn [boot_sd_ok boot_log_opens boot_rtc_ok boot_now].
  run_sketch; unfold_phases.
  cbn [boot_sd_ok boot_log_opens boot_rtc_ok boot_now].
  destruct sd, lop; reflexivity.
Qed.

Lemma setup_rtc_found (b : BootInputs) :
  boot_rtc_ok b = true ->
  setup b =
  ((relay_init_events ++ bus_init_events b ++ setup_complete_events b)%list,
   Returns tt).
Proof.
  destruct b as [sd lop rtc t]; cbn [boot_rtc_ok]; intros ->.
  unfold setup.
  cbn [boot_sd_ok boot_log_opens boot_rtc_ok boot_now].
  run_sketch; unfold_phases.
  cbn [boot_sd_ok boot_log_opens boot_rtc_ok boot_now].
  destruct sd, lop; reflexivity.
Qed.

Lemma loop_rtc_fault (i : CycleInputs) :
  year_plausible (now_wake i) = false ->
  loop i = ((wake_events i ++ rtc_fault_events i)%list, NeverReturns).
Proof.
  unfold year_plausible; intros H; apply negb_false_iff in H.
  destruct i as [sd now raw temp dop lop t2 t3]; cbn [now_wake] in H.
  unfold loop.
  cbn [sd_ok now_wake sensor_raw temperature data_opens log_opens
       now_off_console now_off_log].
  run_sketch; rewrite H; unfold_phases.
  cbn [sd_ok now_wake sensor_raw temperature data_opens log_opens
       now_off_console now_off_log].
  destruct sd; reflexivity.
Qed.

Lemma loop_cycle (i : CycleInputs) :
  year_plausible (now_wake i) = true ->
  loop i = (cycle_events i, Returns tt).
Proof.
  unfold year_plausible; intros H; apply negb_true_iff in H.
  destruct i as [sd now raw temp dop lop t2 t3]; cbn [now_wake] in H.
  unfold loop.
  cbn [sd_ok now_wake sensor_raw temperature data_opens log_opens
       now_off_console now_off_log].
  run_sketch; rewrite H; unfold_phases.
  cbn [sd_ok now_wake sensor_raw temperature data_opens log_opens
       now_off_console now_off_log].
  destruct sd, dop, (irrigation_due _ _), lop; reflexivity.
Qed.

(** ** Observations distribute over concatenation *)

Lemma relay_writes_app (a b : list Event) :
  relay_writes (a ++ b) = (relay_writes a ++ relay_writes b)%list.
Proof.
  induction a as [|e a IH]; [reflexivity|].
  destruct e; cbn [relay_writes app]; try exact IH.
  destruct (is_relay p); cbn [app]; now rewrite IH.
Qed.

Lemma driven_together_app (a b : list (Pin * Level)) :
  driven_together a = true ->
  driven_together (a ++ b) = driven_together b.
Proof.
  enough (H : (driven_together a = true ->
               driven_together (a ++ b) = driven_together b) /\
              (forall x, driven_together (x :: a) = true ->
                         driven_together ((x :: a) ++ b) = driven_together b))
    by apply H.
  induction a as [|y a [IH1 IH2]]; split.
  - reflexivity.
  - intros [p l]; cbn; discriminate.
  - apply IH2.
  - intros [p l]; destruct y as [q l'].
    cbn [driven_together app].
    intros H; apply andb_true_iff in H; destruct H as [H1 H2].
    rewrite H1; cbn [andb]; apply (IH1 H2).
Qed.

Lemma relays_after_app (st : Relays) (a b : list Event) :
  relays_after st (a ++ b) = relays_after (relays_after st a) b.
Proof. apply fold_left_app. Qed.

Lemma closed_at_sleeps_app (a b : list Event) :
  forall st,
    closed_at_sleeps st (a ++ b) =
    closed_at_sleeps st a && closed_at_sleeps (relays_after st a) b.
Proof.
  induction a as [|e a IH]; intros st; [reflexivity|].
  cbn [closed_at_sleeps app relays_after fold_left].
  rewrite IH; unfold relays_after; now rewrite andb_assoc.
Qed.

(** ** The relay lines in one call of [setup] or [loop] *)

Lemma loop_cases (i : CycleInputs) :
  (year_plausible (now_wake i) = false /\
   loop i = ((wake_events i ++ rtc_fault_events i)%list, NeverReturns)) \/
  (year_plausible (now_wake i) = true /\
   loop i = (cycle_events i, Returns tt)).
Proof.
  destruct (year_plausible (now_wake i)) eqn:E;
    [right | left]; split; auto using loop_cycle, loop_rtc_fault.
Qed.

Lemma setup_cases (b : BootInputs) :
  exists rest f,
    setup b = ((relay_init_events ++ bus_init_events b ++ rest)%list, f) /\
    relay_writes rest = [] /\
    (forall st, relays_after st rest = st) /\
    (forall st, closed_at_sleeps st rest = true).
Proof.
  destruct (boot_rtc_ok b) eqn:E.
  - exists (setup_complete_events b), (Returns tt); split;
      [now apply setup_rtc_found|].
    repeat split; intros; reflexivity.
  - exists (rtc_missing_events b), NeverReturns; split;
      [now apply setup_rtc_missing|].
    unfold rtc_missing_events.
    repeat split; intros; destruct (boot_log_opens b); reflexivity.
Qed.

Lemma setup_relays (b : BootInputs) :
  relay_writes (fst (setup b)) =
  [(relayOutputPin1, LOW); (relayOutputPin2, LOW)] /\
  (forall st0, relays_after st0 (fst (setup b)) = (LOW, LOW) /\
               closed_at_sleeps st0 (fst (setup b)) = true).
Proof.
  destruct (setup_cases b) as (rest & f & -> & Hw & Hr & Hc).
  cbn [fst]; split.
  - rewrite !relay_writes_app, Hw; reflexivity.
  - intros st0; split.
    + rewrite !relays_after_app, Hr; reflexivity.
    + rewrite !closed_at_sleeps_app, Hc; reflexivity.
Qed.

Lemma loop_relay_writes (i : CycleInputs) :
  relay_writes (fst (loop i)) =
  if year_plausible (now_wake i) && irrigates i then hold_writes else [].
Proof.
  destruct (loop_cases i) as [[-> ->] | [-> ->]]; cbn [fst andb].
  - unfold wake_events, rtc_fault_events.
    destruct (sd_ok i); reflexivity.
  - unfold cycle_events, wake_events, sample_events, valve_events.
    destruct (irrigates i), (sd_ok i), (data_opens i), (log_opens i);
      reflexivity.
Qed.

Lemma loop_relays (i : CycleInputs) :
  relays_after (LOW, LOW) (fst (loop i)) = (LOW, LOW) /\
  closed_at_sleeps (LOW, LOW) (fst (loop i)) = true.
Proof.
  destruct (loop_cases i) as [[_ ->] | [_ ->]]; cbn [fst].
  - unfold wake_events, rtc_fault_events.
    destruct (sd_ok i); split; reflexivity.
  - unfold cycle_events, wake_events, sample_events, valve_events.
    destruct (irrigates i), (sd_ok i), (data_opens i), (log_opens i);
      split; reflexivity.
Qed.

(** ** Invariants of the running sketch *)

Lemma run_cycle_no (b : BootInputs) (cyc : nat -> CycleInputs) (n : nat) :
  (cycle_no (run b cyc n) <= n)%nat.
Proof.
  induction n as [|n IH]; cbn [run].
  - unfold boot_machine; destruct (setup b); cbn; lia.
  - unfold round; destruct (control (run b cyc n)); cbn [cycle_no]; lia.
Qed.

Lemma round_trace (cyc : nat -> CycleInputs) (m : Machine) :
  trace (round cyc m) = (trace m ++ round_events cyc m)%list.
Proof. unfold round; destruct (control m); reflexivity. Qed.

Lemma boot_trace (b : BootInputs) : trace (boot_machine b) = fst (setup b).
Proof. unfold boot_machine; destruct (setup b); reflexivity. Qed.

Lemma round_events_relays (cyc : nat -> CycleInputs) (m : Machine) :
  relays_after (LOW, LOW) (round_events cyc m) = (LOW, LOW) /\
  closed_at_sleeps (LOW, LOW) (round_events cyc m) = true /\
  driven_together (relay_writes (round_events cyc m)) = true.
Proof.
  unfold round_events; destruct (control m).
  - destruct (loop_relays (cyc (cycle_no m))) as [H1 H2].
    repeat split; trivial.
    rewrite loop_relay_writes; destruct (_ && _); reflexivity.
  - repeat split; reflexivity.
Qed.

Lemma run_relays (b : BootInputs) (cyc : nat -> CycleInputs) (n : nat) :
  driven_together (relay_writes (trace (run b cyc n))) = true /\
  (forall st0, relays_after st0 (trace (run b cyc n)) = (LOW, LOW) /\
               closed_at_sleeps st0 (trace (run b cyc n)) = true).
Proof.
  induction n as [|n [IHd IHs]]; cbn [run].
  - rewrite boot_trace; destruct (setup_relays b) as [-> H]; split; auto.
  - rewrite round_trace.
    destruct (round_events_relays cyc (run b cyc n)) as (H1 & H2 & H3).
    split.
    + rewrite relay_writes_app, driven_together_app; trivial.
    + intros st0; destruct (IHs st0) as [Hr Hc].
      rewrite relays_after_app, closed_at_sleeps_app, Hr, Hc, H1, H2; auto.
Qed.

Lemma run_event_origin (b : BootInputs) (cyc : nat -> CycleInputs) (n : nat)
      (e : Event) :
  In e (trace (run b cyc n)) ->
  In e (fst (setup b)) \/
  e = ELowPowerShutdown shutdown_chunk \/
  exists k, (k < n)%nat /\ In e (fst (loop (cyc k))).
Proof.
  induction n as [|n IH]; cbn [run].
  - rewrite boot_trace; auto.
  - rewrite round_trace; intros H; apply in_app_or in H; destruct H as [H|H].
    + destruct (IH H) as [H1 | [H1 | (k & Hk & H1)]]; auto.
      right; right; exists k; split; [lia | trivial].
    + unfold round_events in H; destruct (control (run b cyc n)).
      * right; right; exists (cycle_no (run b cyc n)); split; trivial.
        pose proof (run_cycle_no b cyc n); lia.
      * destruct H as [<- | []]; auto.
Qed.

Lemma relay_writes_In (tr : list Event) (p : Pin) (l : Level) :
  is_relay p = true ->
  In (EDigitalWrite p l) tr -> In (p, l) (relay_writes tr).
Proof.
  intros Hp; induction tr as [|e tr IH]; [trivial|].
  intros [-> | H].
  - cbn [relay_writes]; rewrite Hp; now left.
  - specialize (IH H); destruct e; cbn [relay_writes]; trivial.
    destruct (is_relay p0); [now right | trivial].
Qed.

Lemma irrigation_due_spec (moisture h : Z) :
  irrigation_due moisture h = true <->
  moisture < moistureValue /\
  (h >= irrigationTimeStart \/ h <= irrigationTimeStop).
Proof.
  unfold irrigation_due.
  rewrite andb_true_iff, orb_true_iff, Z.ltb_lt, Z.geb_le, Z.leb_le; lia.
Qed.

(** C1: the relay lines go [HIGH] only in a cycle whose irrigation test
    holds (plausible year, moisture below the threshold, hour inside the
    window); the two lines are always written as a pair at one level; every
    low-power sleep of the run begins with both lines [LOW], whatever their
    level at power-on; and within one cycle the relay writes are either none
    or the pair [HIGH] followed by the pair [LOW]. *)
Theorem valve_discipline (b : BootInputs) (cyc : nat -> CycleInputs) (n : nat) :
  let tr := trace (run b cyc n) in
  (forall p, is_relay p = true -> In (EDigitalWrite p HIGH) tr ->
     exists k, (k < n)%nat /\
       year_plausible (now_wake (cyc k)) = true /\
       moisture_of (sensor_raw (cyc k)) < moistureValue /\
       (hour (now_wake (cyc k)) >= irrigationTimeStart \/
        hour (now_wake (cyc k)) <= irrigationTimeStop)) /\
  driven_together (relay_writes tr) = true /\
  (forall st0, closed_at_sleeps st0 tr = true /\
               relays_after st0 tr = (LOW, LOW)) /\
  (forall i, relay_writes (fst (loop i)) =
             if year_plausible (now_wake i) && irrigates i
             then hold_writes else []).
Proof.
  cbn zeta; destruct (run_relays b cyc n) as [Hd Hs].
  repeat split; trivial; try apply Hs; try apply loop_relay_writes.
  intros p Hp Hin.
  destruct (run_event_origin _ _ _ _ Hin) as [H | [H | (k & Hk & H)]].
  - apply (relay_writes_In _ _ _ Hp) in H.
    destruct (setup_relays b) as [E _]; rewrite E in H.
    destruct H as [H | [H | []]]; discriminate.
  - discriminate.
  - exists k; split; trivial.
    apply (relay_writes_In _ _ _ Hp) in H.
    rewrite loop_relay_writes in H.
    destruct (year_plausible (now_wake (cyc k))),
             (irrigates (cyc k)) eqn:E;
      cbn [andb In] in H; try contradiction.
    apply irrigation_due_spec in E; tauto.
Qed.

Lemma valve_discipline_witness :
  In (EDigitalWrite relayOutputPin1 HIGH)
     (trace (run boot_fine (fun _ => cycle_at 20) 1)) /\
  moisture_of (sensor_raw (cycle_at 20)) < moistureValue /\
  closed_at_sleeps (HIGH, HIGH)
                   (trace (run boot_fine (fun _ => cycle_at 20) 1)) = true.
Proof.
  assert (Hin : In (EDigitalWrite relayOutputPin1 HIGH)
                   (trace (run boot_fine (fun _ => cycle_at 20) 1)))
    by (vm_compute; auto 40).
  destruct (valve_discipline boot_fine (fun _ => cycle_at 20) 1)
    as (Hhigh & _ & Hsleep & _).
  destruct (Hhigh relayOutputPin1 eq_refl Hin) as (k & _ & _ & Hm & _).
  split; [exact Hin|]; split; [exact Hm | apply Hsleep].
Defined.

(** ** The irrigation test *)

Lemma loop_valve_opens (i : CycleInputs) :
  valve_opens (fst (loop i)) = year_plausible (now_wake i) && irrigates i.
Proof.
  destruct (loop_cases i) as [[-> ->] | [-> ->]]; cbn [fst andb].
  - unfold wake_events, rtc_fault_events.
    destruct (sd_ok i); reflexivity.
  - unfold cycle_events, wake_events, sample_events, valve_events.
    destruct (irrigates i), (sd_ok i), (data_opens i), (log_opens i);
      reflexivity.
Qed.

(** C3: the test of line 204 is [moisture < 20 && (hour >= 19 || hour <= 7)]
    with both hour bounds inclusive; a cycle opens the valve exactly when its
    year is plausible and the test holds; at 10% moisture the valve opens at
    hours 20 and 7 and stays shut at hours 12 and 8. *)
Theorem irrigation_predicate (moisture h : Z) (i : CycleInputs) :
  moistureValue = 20 /\ irrigationTimeStart = 19 /\ irrigationTimeStop = 7 /\
  irrigation_due moisture h =
    (moisture <? 20) && ((h >=? 19) || (h <=? 7)) /\
  (irrigation_due moisture h = true <->
   moisture < 20 /\ (19 <= h \/ h <= 7)) /\
  valve_opens (fst (loop i)) = year_plausible (now_wake i) && irrigates i /\
  moisture_of (sensor_raw (cycle_at h)) = 10 /\
  valve_opens (fst (loop (cycle_at 20))) = true /\
  valve_opens (fst (loop (cycle_at 7))) = true /\
  valve_opens (fst (loop (cycle_at 12))) = false /\
  valve_opens (fst (loop (cycle_at 8))) = false /\
  valve_opens (fst (loop (cycle_at 19))) = true /\
  valve_opens (fst (loop (cycle_at 18))) = false.
Proof.
  repeat match goal with |- _ /\ _ => split end;
    try reflexivity; try apply loop_valve_opens.
  rewrite irrigation_due_spec.
  unfold moistureValue, irrigationTimeStart, irrigationTimeStop; lia.
Qed.

(** ** The moisture map *)

Lemma wrap32_small (z : Z) :
  -2147483648 <= z <= 2147483647 -> wrap32 z = z.
Proof.
  intros H; unfold wrap32.
  change (2 ^ 31) with 2147483648; change (2 ^ 32) with 4294967296.
  rewrite Z.mod_small; lia.
Qed.

Lemma moisture_of_exact (r : Z) :
  raw_in_range r ->
  moisture_of r = Z.quot ((r - 1024) * 100) (-557).
Proof.
  unfold raw_in_range; intros H.
  unfold moisture_of, Arduino.map.
  change (100 - 0) with 100; change (467 - 1024) with (-557).
  rewrite (wrap32_small 100), (wrap32_small (-557)) by lia.
  rewrite (wrap32_small (r - 1024)) by lia.
  rewrite (wrap32_small ((r - 1024) * 100)) by lia.
  rewrite Z.add_0_r.
  rewrite (wrap32_small (Z.quot ((r - 1024) * 100) (-557))) by lia.
  apply wrap32_small; lia.
Qed.

(** C4: the map sends 1024 to 0 and 467 to 100, 745 to 50 and 746 to 49
    (the midpoint 745.5 within a unit); on every reading it is the
    truncated line through these two points, never further than one unit
    from it; it reverses order; and outside [467, 1024] it keeps following
    the line, at or above 100 below 467 and at or below 0 above 1024, with no
    clamping to [0, 100]. *)
Theorem moisture_map_linear (r1 r2 : Z) :
  raw_in_range r1 -> raw_in_range r2 ->
  moisture_of 1024 = 0 /\ moisture_of 467 = 100 /\
  moisture_of 745 = 50 /\ moisture_of 746 = 49 /\
  moisture_of r1 = Z.quot ((r1 - 1024) * (100 - 0)) (467 - 1024) + 0 /\
  -557 < 557 * moisture_of r1 - 100 * (1024 - r1) < 557 /\
  (r1 <= r2 -> moisture_of r2 <= moisture_of r1) /\
  (r1 < 467 -> 100 <= moisture_of r1) /\
  (r1 <= 461 -> 100 < moisture_of r1) /\
  (1024 < r1 -> moisture_of r1 <= 0) /\
  (1030 <= r1 -> moisture_of r1 < 0).
Proof.
  intros H1 H2.
  rewrite (moisture_of_exact r1 H1), (moisture_of_exact r2 H2).
  change (100 - 0) with 100; change (467 - 1024) with (-557).
  unfold raw_in_range in *.
  repeat match goal with |- _ /\ _ => split end;
    try reflexivity; try lia.
Qed.

Lemma moisture_map_linear_witness :
  raw_in_range 300 /\ raw_in_range 1100 /\
  100 < moisture_of 300 /\ moisture_of 1100 < 0 /\
  moisture_of 1100 <= moisture_of 300.
Proof.
  assert (H1 : raw_in_range 300) by (unfold raw_in_range; lia).
  assert (H2 : raw_in_range 1100) by (unfold raw_in_range; lia).
  split; [exact H1|]; split; [exact H2|].
  destruct (moisture_map_linear 300 1100 H1 H2)
    as (_ & _ & _ & _ & _ & _ & Hmono & _ & Hhigh & _ & _).
  destruct (moisture_map_linear 1100 300 H2 H1)
    as (_ & _ & _ & _ & _ & _ & _ & _ & _ & _ & Hneg).
  split; [apply Hhigh; lia|]; split; [apply Hneg; lia | apply Hmono; lia].
Defined.

(** Beyond [raw_in_range] the 32-bit product wraps and the sign flips. *)
Example moisture_of_wraps : moisture_of 21475861 = 3855446.
Proof. reflexivity. Qed.

(** C10, as stated, fails just above 1024: truncation toward zero sends the
    readings 1025 to 1029 to 0, which is not negative. *)
Lemma railed_reading_not_negative :
  1024 < 1025 /\ moisture_of 1025 = 0 /\ ~ moisture_of 1025 < 0.
Proof. repeat split; try reflexivity; try lia. now vm_compute. Qed.

(** C10, amended: every reading above 1024 maps to at most 0 (exactly 0 up to
    1029, negative from 1030 on), hence below the threshold of 20; the
    moisture condition holds and the test reduces to the hour window, so a
    cycle with a plausible year and such a reading opens the valve exactly
    when its hour is inside the window. *)
Theorem railed_reading_irrigates (i : CycleInputs) :
  raw_in_range (sensor_raw i) -> 1024 < sensor_raw i ->
  moisture_of (sensor_raw i) <= 0 /\
  (sensor_raw i <= 1029 -> moisture_of (sensor_raw i) = 0) /\
  (1030 <= sensor_raw i -> moisture_of (sensor_raw i) < 0) /\
  moisture_of (sensor_raw i) < moistureValue /\
  irrigates i =
    (hour (now_wake i) >=? irrigationTimeStart)
    || (hour (now_wake i) <=? irrigationTimeStop) /\
  valve_opens (fst (loop i)) =
    year_plausible (now_wake i)
    && ((hour (now_wake i) >=? irrigationTimeStart)
        || (hour (now_wake i) <=? irrigationTimeStop)).
Proof.
  intros Hr Hgt.
  assert (Hm : moisture_of (sensor_raw i) <= 0).
  { rewrite (moisture_of_exact _ Hr); unfold raw_in_range in Hr; lia. }
  assert (Hd : irrigates i =
               (hour (now_wake i) >=? irrigationTimeStart)
               || (hour (now_wake i) <=? irrigationTimeStop)).
  { unfold irrigation_due.
    replace (moisture_of (sensor_raw i) <? moistureValue) with true;
      [reflexivity|].
    symmetry; apply Z.ltb_lt; unfold moistureValue; lia. }
  repeat match goal with |- _ /\ _ => split end; trivial.
  - rewrite (moisture_of_exact _ Hr); unfold raw_in_range in Hr; lia.
  - rewrite (moisture_of_exact _ Hr); unfold raw_in_range in Hr; lia.
  - unfold moistureValue; lia.
  - rewrite loop_valve_opens, Hd; reflexivity.
Qed.

Lemma railed_reading_irrigates_witness :
  raw_in_range 1100 /\ 1024 < 1100 /\
  valve_opens
    (fst (loop {| sd_ok := false; now_wake := mkDateTime 2021 3 9 23 0 0;
                  sensor_raw := 1100; temperature := 21;
                  data_opens := false; log_opens := false;
                  now_off_console := mkDateTime 2021 3 9 23 0 30;
                  now_off_log := mkDateTime 2021 3 9 23 0 30 |})) = true.
Proof.
  assert (H1 : raw_in_range 1100) by (unfold raw_in_range; lia).
  assert (H2 : 1024 < 1100) by lia.
  split; [exact H1|]; split; [exact H2|].
  exact (proj2 (proj2 (proj2 (proj2 (proj2
    (railed_reading_irrigates
       {| sd_ok := false; now_wake := mkDateTime 2021 3 9 23 0 0;
          sensor_raw := 1100; temperature := 21;
          data_opens := false; log_opens := false;
          now_off_console := mkDateTime 2021 3 9 23 0 30;
          now_off_log := mkDateTime 2021 3 9 23 0 30 |} H1 H2)))))).
Defined.

(** ** The endless shutdown loop *)

Lemma run_shutdown_loop (b : BootInputs) (cyc : nat -> CycleInputs) (n : nat) :
  control (run b cyc n) = ShutdownLoop ->
  forall k,
    control (run b cyc (k + n)) = ShutdownLoop /\
    cycle_no (run b cyc (k + n)) = cycle_no (run b cyc n) /\
    trace (run b cyc (k + n)) =
    (trace (run b cyc n) ++ repeat (ELowPowerShutdown shutdown_chunk) k)%list.
Proof.
  intros Hn k; induction k as [|k (Hc & Hno & Htr)]; cbn [Nat.add run].
  - cbn [repeat]; rewrite app_nil_r; auto.
  - unfold round, round_events; rewrite Hc; cbn [control cycle_no trace].
    repeat split; trivial.
    rewrite Htr, <- app_assoc, <- repeat_cons; reflexivity.
Qed.

Lemma round_cycling (cyc : nat -> CycleInputs) (m : Machine) :
  control m = Cycling ->
  round cyc m =
  {| control := control_after (snd (loop (cyc (cycle_no m))));
     cycle_no := S (cycle_no m);
     trace := (trace m ++ fst (loop (cyc (cycle_no m))))%list |}.
Proof. unfold round, round_events; intros ->; reflexivity. Qed.

Lemma year_implausible (t : DateTime) :
  year t < 2010 \/ 2100 < year t -> year_plausible t = false.
Proof.
  intros H; unfold year_plausible.
  apply negb_false_iff, orb_true_iff; rewrite Z.ltb_lt, Z.gtb_lt; lia.
Qed.

Lemma fault_events_no_work (i : CycleInputs) :
  Forall (fun e => cycle_work e = false)
         (wake_events i ++ rtc_fault_events i).
Proof.
  unfold wake_events, rtc_fault_events.
  destruct (sd_ok i); repeat constructor.
Qed.

(** C2: in a cycle whose clock reads a year outside [2010, 2100], [loop]
    reports the fault on the console and to log.csv, never returns, and
    makes no call that samples, appends a data record or writes a relay
    line; from then on every round of the sketch is one bounded
    [LowPower.shutdown(3000000)], so no later cycle ever runs. *)
Theorem implausible_year_halts
        (b : BootInputs) (cyc : nat -> CycleInputs) (n k : nat) :
  let m := run b cyc n in
  let i := cyc (cycle_no m) in
  control m = Cycling ->
  year (now_wake i) < 2010 \/ 2100 < year (now_wake i) ->
  loop i = ((wake_events i ++ rtc_fault_events i)%list, NeverReturns) /\
  In (ESerialPrintln rtc_fault_message) (rtc_fault_events i) /\
  In (EFilePrintln (logFile_of (log_opens i)) rtc_fault_message)
     (rtc_fault_events i) /\
  Forall (fun e => cycle_work e = false)
         (wake_events i ++ rtc_fault_events i) /\
  control (run b cyc (k + S n)) = ShutdownLoop /\
  cycle_no (run b cyc (k + S n)) = S (cycle_no m) /\
  trace (run b cyc (k + S n)) =
  (trace m ++ (wake_events i ++ rtc_fault_events i)
   ++ repeat (ELowPowerShutdown 3000000) k)%list.
Proof.
  intros m i Hc Hy.
  pose proof (loop_rtc_fault i (year_implausible _ Hy)) as Hl.
  assert (Hr : run b cyc (S n) =
               {| control := ShutdownLoop; cycle_no := S (cycle_no m);
                  trace := (trace m
                            ++ wake_events i ++ rtc_fault_events i)%list |}).
  { cbn [run]; fold m; rewrite (round_cycling cyc m Hc); fold i.
    rewrite Hl; reflexivity. }
  assert (Hs : control (run b cyc (S n)) = ShutdownLoop)
    by (rewrite Hr; reflexivity).
  destruct (run_shutdown_loop b cyc (S n) Hs k) as (H1 & H2 & H3).
  repeat match goal with |- _ /\ _ => split end; trivial.
  - unfold rtc_fault_events; cbn [In]; auto.
  - unfold rtc_fault_events; cbn [In]; auto.
  - apply fault_events_no_work.
  - rewrite H2, Hr; reflexivity.
  - rewrite H3, Hr; cbn [trace]; rewrite <- app_assoc; reflexivity.
Qed.

Lemma implausible_year_halts_witness :
  control (run boot_fine (fun _ => cycle_year_2000) 0) = Cycling /\
  control (run boot_fine (fun _ => cycle_year_2000) 4) = ShutdownLoop /\
  cycle_no (run boot_fine (fun _ => cycle_year_2000) 4) = 1%nat.
Proof.
  assert (Hc : control (run boot_fine (fun _ => cycle_year_2000) 0) = Cycling)
    by reflexivity.
  assert (Hy : year (now_wake cycle_year_2000) < 2010 \/
               2100 < year (now_wake cycle_year_2000))
    by (left; cbn; lia).
  split; [exact Hc|].
  destruct (implausible_year_halts boot_fine (fun _ => cycle_year_2000)
                                   0 3 Hc Hy)
    as (_ & _ & _ & _ & H1 & H2 & _).
  split; [exact H1 | exact H2].
Defined.

(** C7: when [rtc.begin()] fails, [setup] prints the fault on the console,
    writes one line to log.csv if and only if that file opened (the console
    gets a second message otherwise), waits 500 ms and never returns; every
    round of the sketch after that is one bounded
    [LowPower.shutdown(3000000)] and [loop] is never called. *)
Theorem missing_clock_halts
        (b : BootInputs) (cyc : nat -> CycleInputs) (n : nat) :
  boot_rtc_ok b = false ->
  setup b =
  ((relay_init_events ++ bus_init_events b
    ++ [ESerialPrintln "Couldn't find RTC";
        if boot_log_opens b
        then EFilePrintln (logFile_of true)
                          "Could not find RTC. Shutting down."
        else ESerialPrintln "Could not open log file";
        EDelay 500])%list, NeverReturns) /\
  file_lines "log.csv" (fst (setup b)) =
  (if boot_log_opens b then ["Could not find RTC. Shutting down."] else []) /\
  Forall (fun e => writes_through_open_handle e = true) (fst (setup b)) /\
  control (run b cyc n) = ShutdownLoop /\
  cycle_no (run b cyc n) = O /\
  trace (run b cyc n) =
  (fst (setup b) ++ repeat (ELowPowerShutdown 3000000) n)%list.
Proof.
  intros Hrtc.
  pose proof (setup_rtc_missing b Hrtc) as Hs.
  assert (H0 : run b cyc 0 =
               {| control := ShutdownLoop; cycle_no := O;
                  trace := fst (setup b) |}).
  { cbn [run]; unfold boot_machine; rewrite Hs; reflexivity. }
  assert (Hc : control (run b cyc 0) = ShutdownLoop)
    by (rewrite H0; reflexivity).
  destruct (run_shutdown_loop b cyc 0 Hc n) as (H1 & H2 & H3).
  rewrite Nat.add_0_r in H1, H2, H3.
  repeat match goal with |- _ /\ _ => split end; trivial.
  - rewrite Hs; cbn [fst].
    unfold relay_init_events, bus_init_events, rtc_missing_events.
    destruct (boot_log_opens b); reflexivity.
  - rewrite Hs; cbn [fst].
    unfold relay_init_events, bus_init_events, rtc_missing_events.
    destruct (boot_log_opens b); repeat constructor.
  - rewrite H2, H0; reflexivity.
  - rewrite H3, H0; reflexivity.
Qed.

Lemma missing_clock_halts_witness :
  boot_rtc_ok boot_no_clock = false /\
  control (run boot_no_clock (fun _ => cycle_at 20) 5) = ShutdownLoop /\
  cycle_no (run boot_no_clock (fun _ => cycle_at 20) 5) = O.
Proof.
  assert (H : boot_rtc_ok boot_no_clock = false) by reflexivity.
  split; [exact H|].
  destruct (missing_clock_halts boot_no_clock (fun _ => cycle_at 20) 5 H)
    as (_ & _ & _ & H1 & H2 & _).
  split; [exact H1 | exact H2].
Defined.

(** ** Boot order *)

(** C5, on the code: the first calls of [setup], before the low-power
    subsystem, the SPI bus, the serial port, the card and the clock, put both
    relay lines in output mode and write them, and the level written is
    [LOW]; [setup] never writes [HIGH] on a relay line.  (The comment on
    line 80 calls the relay active low and announces a [HIGH] value.) *)
Theorem setup_drives_relays_low (b : BootInputs) :
  (exists rest,
     fst (setup b) =
     ([EPinMode relayOutputPin1 OUTPUT; EDigitalWrite relayOutputPin1 LOW;
       EPinMode relayOutputPin2 OUTPUT; EDigitalWrite relayOutputPin2 LOW;
       ELowPowerBegin] ++ rest)%list) /\
  relay_writes (fst (setup b)) =
  [(relayOutputPin1, LOW); (relayOutputPin2, LOW)] /\
  valve_opens (fst (setup b)) = false /\
  (forall st0, relays_after st0 (fst (setup b)) = (LOW, LOW)).
Proof.
  destruct (setup_relays b) as [Hw Hr].
  repeat match goal with |- _ /\ _ => split end; trivial;
    try (intros st0; apply Hr).
  - destruct (setup_cases b) as (rest & f & -> & _); cbn [fst].
    eexists; unfold relay_init_events, bus_init_events; cbn [app].
    reflexivity.
  - destruct (boot_rtc_ok b) eqn:E.
    + rewrite (setup_rtc_found b E); cbn [fst].
      unfold relay_init_events, bus_init_events, setup_complete_events.
      reflexivity.
    + rewrite (setup_rtc_missing b E); cbn [fst].
      unfold relay_init_events, bus_init_events, rtc_missing_events.
      destruct (boot_log_opens b); reflexivity.
Qed.

(** ** Storage failures *)

Lemma cycle_events_actuation (i : CycleInputs) :
  filter is_actuation (cycle_events i) =
  if irrigates i then valve_hold_events else [].
Proof.
  unfold cycle_events, wake_events, sample_events, valve_events.
  destruct (irrigates i), (sd_ok i), (data_opens i), (log_opens i);
    reflexivity.
Qed.

Lemma cycle_events_open_handles (i : CycleInputs) :
  Forall (fun e => writes_through_open_handle e = true) (cycle_events i).
Proof.
  unfold cycle_events, wake_events, sample_events, valve_events.
  destruct (irrigates i), (sd_ok i), (data_opens i), (log_opens i);
    repeat constructor.
Qed.

Lemma cycle_events_datalog (i : CycleInputs) :
  file_lines "datalog.csv" (cycle_events i) =
  (if data_opens i then [fileLine_of i] else []).
Proof.
  unfold cycle_events, wake_events, sample_events, valve_events.
  destruct (irrigates i), (sd_ok i), (data_opens i), (log_opens i);
    reflexivity.
Qed.

Lemma cycle_events_log (i : CycleInputs) :
  file_lines "log.csv" (cycle_events i) =
  (if irrigates i && log_opens i
   then [valve_on_line i; valve_off_line (now_off_log i)] else []).
Proof.
  unfold cycle_events, wake_events, sample_events, valve_events.
  destruct (irrigates i), (sd_ok i), (data_opens i), (log_opens i);
    reflexivity.
Qed.

Lemma cycle_events_console (i : CycleInputs) :
  (sd_ok i = false ->
   In (ESerialPrintln "Card failed, or not present") (cycle_events i)) /\
  (data_opens i = false ->
   In (ESerialPrintln "error opening datalog.csv") (cycle_events i)).
Proof.
  unfold cycle_events; split; intros H.
  - apply in_or_app; left.
    unfold wake_events; rewrite H; cbn [app In]; auto.
  - apply in_or_app; right; apply in_or_app; left.
    unfold sample_events; rewrite H; cbn [app In]; auto 10.
Qed.

(** C8: in a cycle with a plausible year, whatever the card, datalog.csv and
    log.csv answer, [loop] returns, holds the valve open for [valveOnTimer]
    exactly when the irrigation test holds (the five calls of the hold are
    consecutive in the trace), and ends in its deep sleep; a
    failed card or a failed datalog.csv is reported on the console only, a
    failed log.csv is not reported at all, and nothing is written through a
    handle that did not open: the affected lines are simply absent from the
    files. *)
Theorem storage_failure_keeps_actuation (i : CycleInputs) :
  year_plausible (now_wake i) = true ->
  snd (loop i) = Returns tt /\
  filter is_actuation (fst (loop i)) =
  (if irrigates i
   then [EDigitalWrite relayOutputPin1 HIGH; EDigitalWrite relayOutputPin2 HIGH;
         EDelay valveOnTimer;
         EDigitalWrite relayOutputPin1 LOW; EDigitalWrite relayOutputPin2 LOW]
   else []) /\
  (exists before, fst (loop i) = (before ++ sleep_events)%list) /\
  (irrigates i = true ->
   exists before after,
     fst (loop i) =
     (before ++ valve_hold_events ++ after ++ sleep_events)%list) /\
  Forall (fun e => writes_through_open_handle e = true) (fst (loop i)) /\
  file_lines "datalog.csv" (fst (loop i)) =
  (if data_opens i then [fileLine_of i] else []) /\
  file_lines "log.csv" (fst (loop i)) =
  (if irrigates i && log_opens i
   then [valve_on_line i; valve_off_line (now_off_log i)] else []) /\
  (sd_ok i = false ->
   In (ESerialPrintln "Card failed, or not present") (fst (loop i))) /\
  (data_opens i = false ->
   In (ESerialPrintln "error opening datalog.csv") (fst (loop i))).
Proof.
  intros Hy; rewrite (loop_cycle i Hy); cbn [fst snd].
  destruct (cycle_events_console i) as [Hc1 Hc2].
  repeat match goal with |- _ /\ _ => split end;
    [ reflexivity | apply cycle_events_actuation | | |
      apply cycle_events_open_handles | apply cycle_events_datalog |
      apply cycle_events_log | exact Hc1 | exact Hc2 ].
  - exists (wake_events i ++ sample_events i
            ++ (if irrigates i then valve_events i else []))%list.
    unfold cycle_events; rewrite <- !app_assoc; reflexivity.
  - intros E; unfold cycle_events; rewrite E; unfold valve_events.
    exists (wake_events i ++ sample_events i
            ++ (ESdOpen (logFile_of (log_opens i))
                :: (if log_opens i
                    then [EFilePrintln (logFile_of true) (valve_on_line i)]
                    else []))
            ++ [ESerialPrintln (valve_on_line i)])%list.
    exists ([ERtcNow (now_off_console i);
             ESerialPrintln (valve_off_line (now_off_console i))]
            ++ (if log_opens i
                then [ERtcNow (now_off_log i);
                      EFilePrintln (logFile_of true)
                                   (valve_off_line (now_off_log i));
                      EFileClose (logFile_of true)]
                else []))%list.
    rewrite <- !app_assoc; reflexivity.
Qed.

Lemma storage_failure_keeps_actuation_witness :
  year_plausible (now_wake cycle_no_card) = true /\
  filter is_actuation (fst (loop cycle_no_card)) = valve_hold_events /\
  file_lines "log.csv" (fst (loop cycle_no_card)) = [].
Proof.
  assert (H : year_plausible (now_wake cycle_no_card) = true) by reflexivity.
  split; [exact H|].
  destruct (storage_failure_keeps_actuation cycle_no_card H)
    as (_ & H1 & _ & _ & _ & _ & H2 & _).
  split; [exact H1 | exact H2].
Defined.

(** ** The characters of a time stamp *)

Example get_time_stamp_2021 :
  chars (get_time_stamp (mkDateTime 2021 3 9 19 5 3)) = "2021-03-09T19:05:03".
Proof. reflexivity. Qed.

Lemma all_below_spec (P : Z -> bool) (n : nat) :
  all_below n P = true ->
  forall z, 0 <= z < Z.of_nat n -> P z = true.
Proof.
  induction n as [|n IH]; intros H z Hz; [lia|].
  cbn [all_below] in H; apply andb_true_iff in H; destruct H as [H1 H2].
  destruct (Z.eq_dec z (Z.of_nat n)) as [-> | Hne]; [exact H1|].
  apply IH; [exact H2 | lia].
Qed.

Lemma fmt_0d_4_digits (y : Z) :
  0 <= y <= 9999 -> matches "dddd" (fmt_0d 4 y) = true.
Proof.
  intros H.
  apply (all_below_spec (fun y => matches "dddd" (fmt_0d 4 y))
                        (Z.to_nat 10000));
    [vm_compute; reflexivity | lia].
Qed.

Lemma fmt_0d_2_digits (v : Z) :
  0 <= v <= 99 -> matches "dd" (fmt_0d 2 v) = true.
Proof.
  intros H.
  apply (all_below_spec (fun v => matches "dd" (fmt_0d 2 v))
                        (Z.to_nat 100));
    [vm_compute; reflexivity | lia].
Qed.

Lemma matches_app (p1 p2 s1 s2 : string) :
  matches p1 s1 = true -> matches p2 s2 = true ->
  matches (p1 ++ p2) (s1 ++ s2) = true.
Proof.
  revert s1; induction p1 as [|p p1 IH]; intros [|c s1] H1 H2;
    try discriminate; [exact H2|].
  cbn [matches append] in *.
  apply andb_true_iff in H1; destruct H1 as [Hc H1].
  rewrite Hc; cbn [andb]; now apply IH.
Qed.

Lemma matches_length (p s : string) :
  matches p s = true -> String.length s = String.length p.
Proof.
  revert s; induction p as [|c p IH]; intros [|d s] H; try discriminate;
    [reflexivity|].
  cbn [matches] in H; apply andb_true_iff in H; destruct H as [_ H].
  cbn [String.length]; f_equal; now apply IH.
Qed.

Lemma substring_prefix (s r : string) :
  substring 0 (String.length s) (s ++ r) = s.
Proof.
  induction s as [|c s IH]; cbn [String.length append substring].
  - destruct r; reflexivity.
  - now rewrite IH.
Qed.

Lemma get_past_prefix (s r : string) :
  get (String.length s) (s ++ r) = get 0 r.
Proof. induction s as [|c s IH]; [reflexivity | exact IH]. Qed.

Lemma time_stamp_format (t : DateTime) :
  valid_time t ->
  is_time_stamp (chars (get_time_stamp t)) = true /\
  String.length (chars (get_time_stamp t)) = 19%nat /\
  overrun (get_time_stamp t) = 2%nat.
Proof.
  intros (Hy & Hmo & Hd & Hh & Hmi & Hs).
  assert (H : is_time_stamp (sprintf_time_stamp t) = true).
  { unfold is_time_stamp, sprintf_time_stamp.
    change "dddd-dd-ddTdd:dd:dd"
      with ("dddd" ++ "-" ++ "dd" ++ "-" ++ "dd" ++ "T"
            ++ "dd" ++ ":" ++ "dd" ++ ":" ++ "dd").
    repeat apply matches_app;
      solve [ reflexivity
            | apply fmt_0d_4_digits; lia
            | apply fmt_0d_2_digits; lia ]. }
  pose proof (matches_length _ _ H) as Hl.
  split; [exact H|]; split; [exact Hl|].
  unfold get_time_stamp, sprintf_into, tempString_size; cbn [overrun].
  rewrite Hl; reflexivity.
Qed.

Lemma event_form_intro (ts text : string) :
  is_time_stamp ts = true -> event_form (ts ++ String " " text) = true.
Proof.
  intros H; pose proof (matches_length _ _ H) as Hl.
  change (String.length "dddd-dd-ddTdd:dd:dd") with 19%nat in Hl.
  unfold event_form; rewrite <- Hl.
  rewrite substring_prefix, get_past_prefix, H; reflexivity.
Qed.

(** C6, on the code: for (2021,3,9,19,5,3) [sprintf] produces the nineteen
    characters "2021-03-09T19:05:03", and so for every valid time a
    zero-padded string of that shape; with the terminating NUL that is
    twenty bytes written into [char tempString [18]], two of them past its
    end, for every valid time. *)
Theorem get_time_stamp_overruns :
  get_time_stamp (mkDateTime 2021 3 9 19 5 3) =
  {| chars := "2021-03-09T19:05:03"; overrun := 2 |} /\
  tempString_size = 18%nat /\
  forall t, valid_time t ->
    is_time_stamp (chars (get_time_stamp t)) = true /\
    String.length (chars (get_time_stamp t)) = 19%nat /\
    (String.length (chars (get_time_stamp t)) + 1 > tempString_size)%nat /\
    overrun (get_time_stamp t) = 2%nat.
Proof.
  split; [reflexivity|]; split; [reflexivity|].
  intros t Ht; destruct (time_stamp_format t Ht) as (H1 & H2 & H3).
  repeat split; trivial.
  rewrite H2; unfold tempString_size; lia.
Qed.

(** ** Lines of log.csv *)

Lemma setup_log_lines (b : BootInputs) :
  file_lines "log.csv" (fst (setup b)) =
  (if boot_log_opens b
   then [if boot_rtc_ok b
         then " Setup complete! " ++ chars (get_time_stamp (boot_now b))
         else "Could not find RTC. Shutting down."]
   else []).
Proof.
  destruct (boot_rtc_ok b) eqn:E.
  - rewrite (setup_rtc_found b E); cbn [fst].
    unfold relay_init_events, bus_init_events, setup_complete_events,
      setup_complete_line, logFile_of.
    destruct (boot_log_opens b); reflexivity.
  - rewrite (setup_rtc_missing b E); cbn [fst].
    unfold relay_init_events, bus_init_events, rtc_missing_events.
    destruct (boot_log_opens b); reflexivity.
Qed.

Lemma loop_log_lines (i : CycleInputs) :
  file_lines "log.csv" (fst (loop i)) =
  (if year_plausible (now_wake i)
   then if irrigates i && log_opens i
        then [chars (get_time_stamp (now_wake i)) ++ " Valve on";
              chars (get_time_stamp (now_off_log i)) ++ " Valve off"]
        else []
   else if log_opens i then [rtc_fault_message] else []).
Proof.
  destruct (loop_cases i) as [[-> ->] | [-> ->]]; cbn [fst].
  - unfold wake_events, rtc_fault_events, logFile_of.
    destruct (sd_ok i), (log_opens i); reflexivity.
  - apply cycle_events_log.
Qed.

(** C9, as stated, fails on three of the five lines.  After a boot on
    2021-03-09 at 19:05:03 the one line of log.csv has its text first and its
    time stamp last; the line written when no clock is found, and the one
    written when the clock reads the year 2000, carry no time stamp. *)
Lemma setup_line_text_first :
  (file_lines "log.csv" (fst (setup boot_fine)) =
   [" Setup complete! 2021-03-09T19:05:03"] /\
   event_form " Setup complete! 2021-03-09T19:05:03" = false) /\
  (file_lines "log.csv" (fst (setup boot_no_clock_logged)) =
   ["Could not find RTC. Shutting down."] /\
   event_form "Could not find RTC. Shutting down." = false) /\
  (file_lines "log.csv" (fst (loop cycle_year_2000)) =
   ["There was an error with the RTC. Reset device to retry. Shutting down..."]
   /\
   event_form
     "There was an error with the RTC. Reset device to retry. Shutting down..."
   = false).
Proof. repeat split; reflexivity. Qed.

(** C9, amended: the lines [loop] writes to log.csv around a valve hold are
    the time stamp, a space, and "Valve on" or "Valve off"; the boot line is
    " Setup complete! " followed by the time stamp; the two clock-fault
    lines are fixed texts without a time stamp.  These are all the lines
    [setup] and [loop] write to log.csv. *)
Theorem log_line_forms (b : BootInputs) (i : CycleInputs) :
  valid_time (now_wake i) -> valid_time (now_off_log i) ->
  file_lines "log.csv" (fst (loop i)) =
  (if year_plausible (now_wake i)
   then if irrigates i && log_opens i
        then [chars (get_time_stamp (now_wake i)) ++ " Valve on";
              chars (get_time_stamp (now_off_log i)) ++ " Valve off"]
        else []
   else if log_opens i then [rtc_fault_message] else []) /\
  event_form (chars (get_time_stamp (now_wake i)) ++ " Valve on") = true /\
  event_form (chars (get_time_stamp (now_off_log i)) ++ " Valve off") = true /\
  file_lines "log.csv" (fst (setup b)) =
  (if boot_log_opens b
   then [if boot_rtc_ok b
         then " Setup complete! " ++ chars (get_time_stamp (boot_now b))
         else "Could not find RTC. Shutting down."]
   else []) /\
  event_form (" Setup complete! " ++ chars (get_time_stamp (boot_now b)))
  = false /\
  event_form "Could not find RTC. Shutting down." = false /\
  event_form rtc_fault_message = false.
Proof.
  intros H1 H2.
  destruct (time_stamp_format _ H1) as (F1 & _).
  destruct (time_stamp_format _ H2) as (F2 & _).
  repeat match goal with |- _ /\ _ => split end.
  - apply loop_log_lines.
  - apply (event_form_intro _ "Valve on" F1).
  - apply (event_form_intro _ "Valve off" F2).
  - apply setup_log_lines.
  - reflexivity.
  - reflexivity.
  - reflexivity.
Qed.

Lemma log_line_forms_witness :
  valid_time (now_wake (cycle_at 20)) /\
  valid_time (now_off_log (cycle_at 20)) /\
  file_lines "log.csv" (fst (loop (cycle_at 20))) =
  ["2021-03-09T20:05:03 Valve on"; "2021-03-09T20:05:33 Valve off"] /\
  event_form "2021-03-09T20:05:03 Valve on" = true.
Proof.
  assert (H1 : valid_time (now_wake (cycle_at 20)))
    by (unfold valid_time; cbn; lia).
  assert (H2 : valid_time (now_off_log (cycle_at 20)))
    by (unfold valid_time; cbn; lia).
  split; [exact H1|]; split; [exact H2|].
  destruct (log_line_forms boot_fine (cycle_at 20) H1 H2)
    as (L1 & L2 & _).
  split; [exact L1 | exact L2].
Defined.

(** * Further properties of the sketch *)

(** ** When the sketch keeps cycling *)

Lemma year_plausible_iff (t : DateTime) :
  year_plausible t = true <-> 2010 <= year t <= 2100.
Proof.
  unfold year_plausible.
  rewrite negb_true_iff, orb_false_iff, Z.ltb_ge, Z.gtb_ltb, Z.ltb_ge; lia.
Qed.

Lemma flat_map_seq_S {A : Type} (f : nat -> list A) (n : nat) :
  flat_map f (seq 0 (S n)) = (flat_map f (seq 0 n) ++ f n)%list.
Proof.
  rewrite seq_S, flat_map_app; cbn [flat_map Nat.add].
  now rewrite app_nil_r.
Qed.

Lemma boot_control (b : BootInputs) :
  control (boot_machine b) = if boot_rtc_ok b then Cycling else ShutdownLoop.
Proof.
  unfold boot_machine; destruct (boot_rtc_ok b) eqn:E.
  - rewrite (setup_rtc_found b E); reflexivity.
  - rewrite (setup_rtc_missing b E); reflexivity.
Qed.

Lemma round_control (cyc : nat -> CycleInputs) (m : Machine) :
  control (round cyc m) =
  match control m with
  | ShutdownLoop => ShutdownLoop
  | Cycling => if year_plausible (now_wake (cyc (cycle_no m)))
               then Cycling else ShutdownLoop
  end.
Proof.
  unfold round; destruct (control m); [|reflexivity].
  destruct (loop_cases (cyc (cycle_no m))) as [[-> ->] | [-> ->]];
    reflexivity.
Qed.

Lemma run_cycling (b : BootInputs) (cyc : nat -> CycleInputs) (n : nat) :
  control (run b cyc n) = Cycling ->
  boot_rtc_ok b = true /\
  (forall k, (k < n)%nat -> year_plausible (now_wake (cyc k)) = true) /\
  cycle_no (run b cyc n) = n /\
  trace (run b cyc n) =
  (fst (setup b) ++ flat_map (fun k => cycle_events (cyc k)) (seq 0 n))%list.
Proof.
  induction n as [|n IH]; cbn [run].
  - rewrite boot_control, boot_trace; intros H.
    destruct (boot_rtc_ok b); [|discriminate].
    repeat split; try lia.
    + unfold boot_machine; destruct (setup b); reflexivity.
    + cbn [seq flat_map]; now rewrite app_nil_r.
  - intros H.
    destruct (control (run b cyc n)) eqn:Hc;
      [|rewrite round_control, Hc in H; discriminate].
    destruct (IH eq_refl) as (Hb & Hy & Hno & Htr).
    rewrite round_control, Hc, Hno in H.
    destruct (year_plausible (now_wake (cyc n))) eqn:E; [|discriminate].
    rewrite (round_cycling cyc _ Hc), Hno, (loop_cycle _ E).
    cbn [cycle_no trace fst].
    repeat split; trivial.
    + intros k Hk; destruct (Nat.eq_dec k n) as [-> | Hne]; trivial.
      apply Hy; lia.
    + rewrite Htr, flat_map_seq_S, <- app_assoc; reflexivity.
Qed.

Lemma run_keeps_cycling (b : BootInputs) (cyc : nat -> CycleInputs) (n : nat) :
  boot_rtc_ok b = true ->
  (forall k, (k < n)%nat -> year_plausible (now_wake (cyc k)) = true) ->
  control (run b cyc n) = Cycling.
Proof.
  intros Hb; induction n as [|n IH]; intros Hy; cbn [run].
  - now rewrite boot_control, Hb.
  - assert (Hc : control (run b cyc n) = Cycling)
      by (apply IH; intros k Hk; apply Hy; lia).
    rewrite round_control, Hc.
    destruct (run_cycling b cyc n Hc) as (_ & _ & -> & _).
    rewrite Hy; [reflexivity | lia].
Qed.

(** X1: after [n] rounds the sketch is still calling [loop] exactly when the
    clock was found at boot and each of the [n] cycles read a year in
    2010..2100, bounds included; the answers of the card, of the two files
    and of the sensor play no part.  It has then run [n] whole cycles. *)
Theorem cycling_iff_clock_fine
        (b : BootInputs) (cyc : nat -> CycleInputs) (n : nat) :
  (control (run b cyc n) = Cycling <->
   boot_rtc_ok b = true /\
   forall k, (k < n)%nat -> 2010 <= year (now_wake (cyc k)) <= 2100) /\
  (control (run b cyc n) = Cycling -> cycle_no (run b cyc n) = n).
Proof.
  split; [split|].
  - intros H; destruct (run_cycling b cyc n H) as (Hb & Hy & _).
    split; trivial; intros k Hk; apply year_plausible_iff, Hy, Hk.
  - intros [Hb Hy]; apply run_keeps_cycling; trivial.
    intros k Hk; apply year_plausible_iff, Hy, Hk.
  - intros H; apply (run_cycling b cyc n H).
Qed.

(** ** What a cycling run leaves in the two files *)

Lemma file_lines_app (name : string) (a b : list Event) :
  file_lines name (a ++ b) = (file_lines name a ++ file_lines name b)%list.
Proof.
  induction a as [|e a IH]; [reflexivity|].
  destruct e; cbn [file_lines app]; try exact IH.
  destruct (_ && _); cbn [app]; now rewrite IH.
Qed.

Lemma file_lines_flat_map (name : string) (f : nat -> list Event)
      (l : list nat) :
  file_lines name (flat_map f l) =
  flat_map (fun k => file_lines name (f k)) l.
Proof.
  induction l as [|x l IH]; [reflexivity|].
  cbn [flat_map]; now rewrite file_lines_app, IH.
Qed.

Lemma setup_datalog (b : BootInputs) :
  file_lines "datalog.csv" (fst (setup b)) = [].
Proof.
  destruct (boot_rtc_ok b) eqn:E.
  - rewrite (setup_rtc_found b E); cbn [fst].
    unfold relay_init_events, bus_init_events, setup_complete_events,
      logFile_of.
    reflexivity.
  - rewrite (setup_rtc_missing b E); cbn [fst].
    unfold relay_init_events, bus_init_events, rtc_missing_events.
    destruct (boot_log_opens b); reflexivity.
Qed.

(** X2: while the sketch keeps cycling, datalog.csv holds one record for each
    cycle whose [SD.open] succeeded, in cycle order, and nothing else: a
    failed open loses that cycle's record only, is never retried and never
    duplicates a record; log.csv holds the boot line (if it opened at boot)
    followed, cycle by cycle, by the "Valve on"/"Valve off" pair of each
    irrigating cycle whose log.csv opened. *)
Theorem files_of_cycling_run
        (b : BootInputs) (cyc : nat -> CycleInputs) (n : nat) :
  control (run b cyc n) = Cycling ->
  file_lines "datalog.csv" (trace (run b cyc n)) =
  flat_map (fun k => datalog_of (cyc k)) (seq 0 n) /\
  file_lines "log.csv" (trace (run b cyc n)) =
  ((if boot_log_opens b then [setup_complete_line (boot_now b)] else [])
   ++ flat_map (fun k => valve_log_of (cyc k)) (seq 0 n))%list.
Proof.
  intros H; destruct (run_cycling b cyc n H) as (Hb & _ & _ & ->).
  rewrite !file_lines_app, !file_lines_flat_map, setup_datalog.
  rewrite setup_log_lines, Hb; split.
  - cbn [app]; apply flat_map_ext; intros k; apply cycle_events_datalog.
  - f_equal; apply flat_map_ext; intros k; apply cycle_events_log.
Qed.

Lemma files_of_cycling_run_witness :
  control (run boot_fine cycle_card_gone 3) = Cycling /\
  file_lines "datalog.csv" (trace (run boot_fine cycle_card_gone 3)) = [] /\
  file_lines "log.csv" (trace (run boot_fine cycle_card_gone 3)) =
  [" Setup complete! 2021-03-09T19:05:03"].
Proof.
  assert (H : control (run boot_fine cycle_card_gone 3) = Cycling)
    by reflexivity.
  split; [exact H|].
  destruct (files_of_cycling_run boot_fine cycle_card_gone 3 H) as [H1 H2].
  split; [exact H1 | exact H2].
Defined.

(** ** The sleep schedule *)

Lemma setup_sleeps (b : BootInputs) : sleeps_of (fst (setup b)) = [].
Proof.
  destruct (boot_rtc_ok b) eqn:E.
  - rewrite (setup_rtc_found b E); reflexivity.
  - rewrite (setup_rtc_missing b E); cbn [fst].
    unfold relay_init_events, bus_init_events, rtc_missing_events.
    destruct (boot_log_opens b); reflexivity.
Qed.

Lemma loop_sleeps (i : CycleInputs) :
  sleeps_of (fst (loop i)) =
  if year_plausible (now_wake i) then [ELowPowerDeepSleep sleepTime] else [].
Proof.
  destruct (loop_cases i) as [[-> ->] | [-> ->]]; cbn [fst].
  - unfold wake_events, rtc_fault_events.
    destruct (sd_ok i); reflexivity.
  - unfold cycle_events, wake_events, sample_events, valve_events.
    destruct (irrigates i), (sd_ok i), (data_opens i), (log_opens i);
      reflexivity.
Qed.

Lemma repeat_snoc {A : Type} (x : A) (n : nat) :
  (repeat x n ++ [x])%list = repeat x (S n).
Proof. now rewrite <- repeat_cons. Qed.

(** X3: the low-power calls of any run are deep sleeps of [sleepTime], one
    per completed cycle, followed by shutdowns of 3000000 ms, one per round
    spent halted: a deep sleep never follows a shutdown, and at most one
    round of the run (the cycle that found the clock wrong) sleeps not at
    all.  While the sketch keeps cycling there is no shutdown and exactly one
    deep sleep per round. *)
Theorem sleep_schedule (b : BootInputs) (cyc : nat -> CycleInputs) (n : nat) :
  exists c h,
    sleeps_of (trace (run b cyc n)) =
    (repeat (ELowPowerDeepSleep sleepTime) c
     ++ repeat (ELowPowerShutdown 3000000) h)%list /\
    (c + h <= n <= S (c + h))%nat /\
    (control (run b cyc n) = Cycling -> c = n /\ h = O).
Proof.
  induction n as [|n (c & h & Hs & Hn & Hcyc)]; cbn [run].
  - exists O, O; rewrite boot_trace, setup_sleeps.
    repeat split; lia.
  - unfold sleeps_of in *; rewrite round_trace, filter_app, Hs.
    unfold round, round_events.
    destruct (control (run b cyc n)) eqn:Ec.
    + destruct (Hcyc eq_refl) as [-> ->].
      fold (sleeps_of (fst (loop (cyc (cycle_no (run b cyc n)))))).
      rewrite loop_sleeps; cbn [repeat]; rewrite app_nil_r.
      cbn [control cycle_no].
      destruct (loop_cases (cyc (cycle_no (run b cyc n))))
        as [[-> ->] | [-> ->]]; cbn [control_after snd].
      * exists n, O; cbn [repeat]; rewrite !app_nil_r.
        repeat split; try lia; discriminate.
      * exists (S n), O; cbn [repeat app]; rewrite app_nil_r, repeat_snoc.
        repeat split; try lia.
    + exists c, (S h); cbn [filter is_sleep control cycle_no].
      rewrite <- app_assoc, repeat_snoc.
      repeat split; try lia; discriminate.
Qed.

(** ** File handles *)

Lemma handles_after_app (n : nat) (a b : list Event) :
  handles_after n (a ++ b) = handles_after (handles_after n a) b.
Proof. apply fold_left_app. Qed.

Lemma one_handle_app (a b : list Event) :
  forall n,
    one_handle n (a ++ b) =
    one_handle n a && one_handle (handles_after n a) b.
Proof.
  induction a as [|e a IH]; intros n; [reflexivity|].
  cbn [one_handle app handles_after fold_left].
  rewrite IH; unfold handles_after; now rewrite andb_assoc.
Qed.

Lemma setup_handles (b : BootInputs) :
  one_handle 0 (fst (setup b)) = true /\
  handles_after 0 (fst (setup b)) =
  (if boot_rtc_ok b then 0 else if boot_log_opens b then 1 else 0)%nat.
Proof.
  destruct (boot_rtc_ok b) eqn:E.
  - rewrite (setup_rtc_found b E); cbn [fst].
    unfold relay_init_events, bus_init_events, setup_complete_events,
      logFile_of.
    destruct (boot_log_opens b); split; reflexivity.
  - rewrite (setup_rtc_missing b E); cbn [fst].
    unfold relay_init_events, bus_init_events, rtc_missing_events,
      logFile_of.
    destruct (boot_log_opens b); split; reflexivity.
Qed.

Lemma loop_handles (i : CycleInputs) :
  one_handle 0 (fst (loop i)) = true /\
  handles_after 0 (fst (loop i)) = O.
Proof.
  destruct (loop_cases i) as [[_ ->] | [_ ->]]; cbn [fst].
  - unfold wake_events, rtc_fault_events, logFile_of.
    destruct (sd_ok i), (log_opens i); split; reflexivity.
  - unfold cycle_events, wake_events, sample_events, valve_events,
      logFile_of, dataFile_of.
    destruct (irrigates i), (sd_ok i), (data_opens i), (log_opens i);
      split; reflexivity.
Qed.

Lemma shutdowns_handles (n k : nat) :
  one_handle n (repeat (ELowPowerShutdown shutdown_chunk) k) = true /\
  handles_after n (repeat (ELowPowerShutdown shutdown_chunk) k) = n.
Proof. induction k as [|k [IH1 IH2]]; split; trivial. Qed.

(** X4: in any run, whatever the peripherals answer, no file handle is open
    when [SD.open] is called and none is open when a deep sleep begins: at
    most one handle is open at any time, and every handle that [loop] opens
    is closed again before [loop] ends. *)
Theorem one_file_at_a_time
        (b : BootInputs) (cyc : nat -> CycleInputs) (n : nat) :
  one_handle 0 (trace (run b cyc n)) = true /\
  (control (run b cyc n) = Cycling ->
   handles_after 0 (trace (run b cyc n)) = O) /\
  (forall i, handles_after 0 (fst (loop i)) = O).
Proof.
  split; [|split; [|intros i; apply loop_handles]];
    induction n as [|n IH]; cbn [run].
  - rewrite boot_trace; apply setup_handles.
  - rewrite round_trace, one_handle_app, IH; cbn [andb].
    unfold round_events.
    destruct (control (run b cyc n)) eqn:Ec;
      [|apply (shutdowns_handles _ 1)].
    assert (H0 : handles_after 0 (trace (run b cyc n)) = O).
    { clear IH; revert Ec; generalize n; intros m.
      induction m as [|m IHm]; cbn [run].
      - rewrite boot_control, boot_trace.
        destruct (setup_handles b) as [_ ->].
        destruct (boot_rtc_ok b); [reflexivity | discriminate].
      - rewrite round_control, round_trace, handles_after_app.
        unfold round_events.
        destruct (control (run b cyc m)); [|discriminate].
        intros _; rewrite (IHm eq_refl); apply loop_handles. }
    rewrite H0; apply loop_handles.
  - rewrite boot_control, boot_trace.
    destruct (setup_handles b) as [_ ->].
    destruct (boot_rtc_ok b); [reflexivity | discriminate].
  - rewrite round_control, round_trace, handles_after_app.
    unfold round_events.
    destruct (control (run b cyc n)); [|discriminate].
    intros _; rewrite (IH eq_refl); apply loop_handles.
Qed.

Lemma filter_repeat_shutdown (k : nat) :
  filter is_close (repeat (ELowPowerShutdown shutdown_chunk) k) = [].
Proof. induction k as [|k IH]; trivial. Qed.

(** X5: when the clock is not found at boot, the handle of log.csv opened on
    line 115 is never closed: no [close] call occurs in the whole run, and if
    the file had opened its handle stays open through every shutdown. *)
Theorem missing_clock_leaves_log_open
        (b : BootInputs) (cyc : nat -> CycleInputs) (n : nat) :
  boot_rtc_ok b = false ->
  filter is_close (trace (run b cyc n)) = [] /\
  handles_after 0 (trace (run b cyc n)) =
  (if boot_log_opens b then 1 else 0)%nat.
Proof.
  intros Hb.
  assert (Hc : control (run b cyc 0) = ShutdownLoop)
    by (cbn [run]; rewrite boot_control, Hb; reflexivity).
  destruct (run_shutdown_loop b cyc 0 Hc n) as (_ & _ & Htr).
  rewrite Nat.add_0_r in Htr; rewrite Htr; cbn [run].
  rewrite boot_trace, filter_app, handles_after_app, filter_repeat_shutdown.
  destruct (shutdowns_handles (handles_after 0 (fst (setup b))) n) as [_ ->].
  destruct (setup_handles b) as [_ ->]; rewrite Hb; split; trivial.
  rewrite (setup_rtc_missing b Hb); cbn [fst].
  unfold relay_init_events, bus_init_events, rtc_missing_events.
  destruct (boot_log_opens b); reflexivity.
Qed.

Lemma missing_clock_leaves_log_open_witness :
  boot_rtc_ok boot_no_clock_logged = false /\
  handles_after 0 (trace (run boot_no_clock_logged cycle_card_gone 4)) = 1%nat.
Proof.
  assert (H : boot_rtc_ok boot_no_clock_logged = false) by reflexivity.
  split; [exact H|].
  exact (proj2 (missing_clock_leaves_log_open
                  boot_no_clock_logged cycle_card_gone 4 H)).
Defined.

(** ** Set up before use *)

Lemma board_after_app (b : Board) (a c : list Event) :
  board_after b (a ++ c) = board_after (board_after b a) c.
Proof. apply fold_left_app. Qed.

Lemma set_up_before_use_app (a c : list Event) :
  forall b,
    set_up_before_use b (a ++ c) =
    set_up_before_use b a && set_up_before_use (board_after b a) c.
Proof.
  induction a as [|e a IH]; intros b; [reflexivity|].
  cbn [set_up_before_use app board_after fold_left].
  rewrite IH; unfold board_after; now rewrite andb_assoc.
Qed.

Lemma setup_set_up (b : BootInputs) :
  set_up_before_use power_on (fst (setup b)) = true /\
  lowpower_begun (board_after power_on (fst (setup b))) = true /\
  (boot_rtc_ok b = true ->
   board_after power_on (fst (setup b)) = board_ready).
Proof.
  destruct (boot_rtc_ok b) eqn:E.
  - rewrite (setup_rtc_found b E); cbn [fst].
    unfold relay_init_events, bus_init_events, setup_complete_events.
    rewrite E; repeat split; reflexivity.
  - rewrite (setup_rtc_missing b E); cbn [fst].
    unfold relay_init_events, bus_init_events, rtc_missing_events.
    rewrite E; destruct (boot_log_opens b);
      repeat split; try reflexivity; discriminate.
Qed.

Lemma loop_set_up (i : CycleInputs) :
  set_up_before_use board_ready (fst (loop i)) = true /\
  board_after board_ready (fst (loop i)) = board_ready.
Proof.
  destruct (loop_cases i) as [[_ ->] | [_ ->]]; cbn [fst].
  - unfold wake_events, rtc_fault_events.
    destruct (sd_ok i); split; reflexivity.
  - unfold cycle_events, wake_events, sample_events, valve_events.
    destruct (irrigates i), (sd_ok i), (data_opens i), (log_opens i);
      split; reflexivity.
Qed.

Lemma run_set_up (b : BootInputs) (cyc : nat -> CycleInputs) (n : nat) :
  set_up_before_use power_on (trace (run b cyc n)) = true /\
  lowpower_begun (board_after power_on (trace (run b cyc n))) = true /\
  (control (run b cyc n) = Cycling ->
   board_after power_on (trace (run b cyc n)) = board_ready).
Proof.
  induction n as [|n (IH1 & IH2 & IH3)]; cbn [run].
  - rewrite boot_trace, boot_control.
    destruct (setup_set_up b) as (H1 & H2 & H3).
    repeat split; trivial.
    destruct (boot_rtc_ok b); [auto | discriminate].
  - rewrite round_trace, round_control, set_up_before_use_app,
      board_after_app, IH1.
    unfold round_events; cbn [andb].
    destruct (control (run b cyc n)).
    + rewrite (IH3 eq_refl).
      destruct (loop_set_up (cyc (cycle_no (run b cyc n)))) as [-> ->].
      repeat split.
    + cbn [set_up_before_use set_up_for board_after fold_left board_step].
      rewrite IH2; repeat split; trivial; discriminate.
Qed.

(** X6: on every path of every run, each call finds what it uses already set
    up: a pin is written only after [pinMode(pin, OUTPUT)] and sampled only
    after [pinMode(pin, INPUT)]; nothing is printed before [Serial.begin];
    [SD.open] comes after an [SD.begin] call, [rtc.begin] after
    [Wire.begin], every low-power sleep after [LowPower.begin]; and the clock
    is read ([rtc.now], [rtc.getTemperature]) only if [rtc.begin] found
    it. *)
Theorem set_up_precedes_use
        (b : BootInputs) (cyc : nat -> CycleInputs) (n : nat) :
  set_up_before_use power_on (trace (run b cyc n)) = true.
Proof. apply run_set_up. Qed.

(** ** The fault indicator *)

Lemma led_lit_app (a c : list Event) :
  led_lit (a ++ c) = led_lit a || led_lit c.
Proof. apply existsb_app. Qed.

Lemma setup_led (b : BootInputs) : led_lit (fst (setup b)) = false.
Proof.
  destruct (boot_rtc_ok b) eqn:E.
  - rewrite (setup_rtc_found b E); reflexivity.
  - rewrite (setup_rtc_missing b E); cbn [fst].
    unfold relay_init_events, bus_init_events, rtc_missing_events.
    destruct (boot_log_opens b); reflexivity.
Qed.

Lemma cycle_events_led (i : CycleInputs) : led_lit (cycle_events i) = false.
Proof.
  unfold cycle_events, wake_events, sample_events, valve_events.
  destruct (irrigates i), (sd_ok i), (data_opens i), (log_opens i);
    reflexivity.
Qed.

Lemma led_lit_shutdowns (k : nat) :
  led_lit (repeat (ELowPowerShutdown shutdown_chunk) k) = false.
Proof. induction k as [|k IH]; trivial. Qed.

(** X7: the built-in LED is written [HIGH] only by a cycle that found the
    year out of range, and the sketch is halted from then on: a run that is
    still cycling has never lit it, and a boot that does not find the clock
    halts without ever lighting it. *)
Theorem fault_indicator (b : BootInputs) (cyc : nat -> CycleInputs) (n : nat) :
  (led_lit (trace (run b cyc n)) = true ->
   control (run b cyc n) = ShutdownLoop /\
   boot_rtc_ok b = true /\
   exists k, (k < n)%nat /\
     (year (now_wake (cyc k)) < 2010 \/ 2100 < year (now_wake (cyc k)))) /\
  (boot_rtc_ok b = false -> led_lit (trace (run b cyc n)) = false).
Proof.
  assert (Hcyc : forall m, control (run b cyc m) = Cycling ->
                           led_lit (trace (run b cyc m)) = false).
  { intros m H; destruct (run_cycling b cyc m H) as (_ & Hy & _ & ->).
    rewrite led_lit_app, setup_led; cbn [orb].
    clear H; induction m as [|m IH]; [reflexivity|].
    rewrite flat_map_seq_S, led_lit_app, IH by (intros k Hk; apply Hy; lia).
    apply cycle_events_led. }
  assert (Hmiss : boot_rtc_ok b = false ->
                  led_lit (trace (run b cyc n)) = false).
  { intros Hb.
    assert (Hc : control (run b cyc 0) = ShutdownLoop)
      by (cbn [run]; rewrite boot_control, Hb; reflexivity).
    destruct (run_shutdown_loop b cyc 0 Hc n) as (_ & _ & Htr).
    rewrite Nat.add_0_r in Htr; rewrite Htr; cbn [run].
    now rewrite boot_trace, led_lit_app, setup_led, led_lit_shutdowns. }
  split; [|exact Hmiss].
  intros Hl.
  destruct (control (run b cyc n)) eqn:Ec;
    [rewrite (Hcyc n Ec) in Hl; discriminate|].
  destruct (boot_rtc_ok b) eqn:Eb;
    [|rewrite (Hmiss eq_refl) in Hl; discriminate].
  repeat split.
  destruct (Nat.eq_dec n 0) as [-> | Hn].
  { cbn [run] in Ec; rewrite boot_control, Eb in Ec; discriminate. }
  assert (Hex : ~ forall k, (k < n)%nat ->
                            year_plausible (now_wake (cyc k)) = true).
  { intros Hall; rewrite (run_keeps_cycling b cyc n Eb Hall) in Ec.
    discriminate. }
  clear - Hex; induction n as [|n IH];
    [exfalso; apply Hex; intros k Hk; lia|].
  destruct (year_plausible (now_wake (cyc n))) eqn:E.
  - destruct IH as (k & Hk & Hy).
    + intros Hall; apply Hex; intros k Hk.
      destruct (Nat.eq_dec k n) as [-> | Hne]; [exact E | apply Hall; lia].
    + exists k; split; [lia | exact Hy].
  - exists n; split; [lia|].
    destruct (Z_lt_dec (year (now_wake (cyc n))) 2010); [auto|].
    destruct (Z_lt_dec 2100 (year (now_wake (cyc n)))); [auto|].
    assert (H : year_plausible (now_wake (cyc n)) = true)
      by (apply year_plausible_iff; lia).
    congruence.
Qed.

(** ** The moisture scale in sensor units *)

(** X8: a reading inside the calibrated domain 467..1024 maps into 0..100;
    a reading of a 10-bit converter (0..1023) maps into 0..183, so a
    record of datalog.csv can show a moisture above 100 but, at that
    resolution, never a negative one. *)
Theorem moisture_bounds (r : Z) :
  0 <= r <= 1024 ->
  0 <= moisture_of r <= 183 /\
  (467 <= r -> moisture_of r <= 100) /\
  (r <= 461 <-> 100 < moisture_of r) /\
  (moisture_of r = 0 <-> 1019 <= r).
Proof.
  intros H.
  assert (Hr : raw_in_range r) by (unfold raw_in_range; lia).
  rewrite (moisture_of_exact r Hr).
  repeat split; intros; lia.
Qed.

Lemma moisture_bounds_witness :
  0 <= 700 <= 1024 /\ 0 <= moisture_of 700 <= 100.
Proof.
  assert (H : 0 <= 700 <= 1024) by lia.
  split; [exact H|].
  destruct (moisture_bounds 700 H) as ([H1 _] & H2 & _).
  split; [exact H1 | apply H2; lia].
Defined.

(** X9: in sensor units the threshold of 20% is the raw reading 913: the
    moisture condition of line 204 holds exactly for readings of 913 and
    above, and a cycle with a plausible year opens the valve exactly when
    its reading is at least 913 and its hour is not one of 8..18. *)
Theorem valve_threshold_raw (i : CycleInputs) :
  raw_in_range (sensor_raw i) ->
  (moisture_of (sensor_raw i) < moistureValue <-> 913 <= sensor_raw i) /\
  valve_opens (fst (loop i)) =
  year_plausible (now_wake i)
  && ((913 <=? sensor_raw i)
      && negb ((8 <=? hour (now_wake i)) && (hour (now_wake i) <=? 18))).
Proof.
  intros Hr.
  assert (Hm : moisture_of (sensor_raw i) < moistureValue <->
               913 <= sensor_raw i).
  { rewrite (moisture_of_exact _ Hr).
    unfold raw_in_range in Hr; unfold moistureValue; lia. }
  split; [exact Hm|].
  rewrite loop_valve_opens; f_equal.
  unfold irrigation_due, irrigationTimeStart, irrigationTimeStop.
  destruct (Z.ltb_spec (moisture_of (sensor_raw i)) moistureValue) as [H|H];
    destruct (Z.leb_spec 913 (sensor_raw i)) as [H'|H'];
    try (exfalso; lia); cbn [andb]; trivial.
  destruct (Z.leb_spec 8 (hour (now_wake i)));
    destruct (Z.leb_spec (hour (now_wake i)) 18);
    destruct (Z.leb_spec (hour (now_wake i)) 7);
    destruct (hour (now_wake i) >=? 19) eqn:E;
    cbn [andb orb negb]; trivial;
    rewrite ?Z.geb_le, <- ?not_true_iff_false, ?Z.geb_le in E; lia.
Qed.

Lemma valve_threshold_raw_witness :
  raw_in_range (sensor_raw (cycle_at 20)) /\
  valve_opens (fst (loop (cycle_at 20))) = true.
Proof.
  assert (H : raw_in_range (sensor_raw (cycle_at 20)))
    by (unfold raw_in_range; cbn; lia).
  split; [exact H|].
  exact (proj2 (valve_threshold_raw (cycle_at 20) H)).
Defined.

(** ** Time stamps *)

Lemma length_append (s1 s2 : string) :
  String.length (s1 ++ s2) = (String.length s1 + String.length s2)%nat.
Proof. induction s1 as [|c s1 IH]; cbn; [reflexivity | now rewrite IH]. Qed.

Lemma length_zeros (n : nat) : String.length (zeros n) = n.
Proof. induction n as [|n IH]; cbn; [reflexivity | now rewrite IH]. Qed.

Lemma fmt_0d_width (w : nat) (z : Z) : (w <= String.length (fmt_0d w z))%nat.
Proof.
  unfold fmt_0d; destruct (z <? 0); cbn [String.length];
    rewrite length_append, length_zeros; lia.
Qed.

(** X10: [%04d] and [%02d] pad but never truncate, so for every [DateTime],
    valid or not, the formatted text has at least nineteen characters and
    [sprintf] writes at least two bytes past the end of
    [char tempString [18]]; no input keeps the write inside the array. *)
Theorem time_stamp_never_fits (t : DateTime) :
  (19 <= String.length (chars (get_time_stamp t)))%nat /\
  (2 <= overrun (get_time_stamp t))%nat.
Proof.
  assert (H : (19 <= String.length (sprintf_time_stamp t))%nat).
  { unfold sprintf_time_stamp; rewrite !length_append.
    pose proof (fmt_0d_width 4 (year t)).
    pose proof (fmt_0d_width 2 (month t)).
    pose proof (fmt_0d_width 2 (day t)).
    pose proof (fmt_0d_width 2 (hour t)).
    pose proof (fmt_0d_width 2 (minute t)).
    pose proof (fmt_0d_width 2 (second t)).
    cbn [String.length]; lia. }
  split; [exact H|].
  unfold get_time_stamp, sprintf_into, tempString_size; cbn [overrun]; lia.
Qed.

Lemma fmt_0d_4_value (y : Z) :
  0 <= y <= 9999 -> digits_value 0 (fmt_0d 4 y) = y.
Proof.
  intros H.
  apply Z.eqb_eq.
  apply (all_below_spec (fun y => digits_value 0 (fmt_0d 4 y) =? y)
                        (Z.to_nat 10000));
    [vm_compute; reflexivity | lia].
Qed.

Lemma fmt_0d_2_value (v : Z) :
  0 <= v <= 99 -> digits_value 0 (fmt_0d 2 v) = v.
Proof.
  intros H.
  apply Z.eqb_eq.
  apply (all_below_spec (fun v => digits_value 0 (fmt_0d 2 v) =? v)
                        (Z.to_nat 100));
    [vm_compute; reflexivity | lia].
Qed.

Lemma append_inj_length (a a' r r' : string) :
  String.length a = String.length a' ->
  a ++ r = a' ++ r' -> a = a' /\ r = r'.
Proof.
  revert a'; induction a as [|c a IH]; intros [|c' a'] Hl H;
    try discriminate; [auto|].
  cbn [append] in H; injection H as -> H.
  injection Hl as Hl; destruct (IH a' Hl H) as [-> ->]; auto.
Qed.

Lemma fmt_0d_4_length (y : Z) :
  0 <= y <= 9999 -> String.length (fmt_0d 4 y) = 4%nat.
Proof. intros H; apply (matches_length "dddd"), fmt_0d_4_digits, H. Qed.

Lemma fmt_0d_2_length (v : Z) :
  0 <= v <= 99 -> String.length (fmt_0d 2 v) = 2%nat.
Proof. intros H; apply (matches_length "dd"), fmt_0d_2_digits, H. Qed.

(** X11: on valid times the formatter is one-to-one: two valid times with
    the same time stamp are the same time, field by field, so a line of
    either file identifies its second. *)
Theorem time_stamp_injective (t1 t2 : DateTime) :
  valid_time t1 -> valid_time t2 ->
  chars (get_time_stamp t1) = chars (get_time_stamp t2) -> t1 = t2.
Proof.
  intros (Hy1 & Hmo1 & Hd1 & Hh1 & Hmi1 & Hs1)
         (Hy2 & Hmo2 & Hd2 & Hh2 & Hmi2 & Hs2) H.
  change (sprintf_time_stamp t1 = sprintf_time_stamp t2) in H.
  unfold sprintf_time_stamp in H.
  apply append_inj_length in H;
    [|rewrite !fmt_0d_4_length by lia; reflexivity].
  destruct H as [Ey H]; cbn [append] in H; injection H as H.
  apply append_inj_length in H;
    [|rewrite !fmt_0d_2_length by lia; reflexivity].
  destruct H as [Emo H]; cbn [append] in H; injection H as H.
  apply append_inj_length in H;
    [|rewrite !fmt_0d_2_length by lia; reflexivity].
  destruct H as [Ed H]; cbn [append] in H; injection H as H.
  apply append_inj_length in H;
    [|rewrite !fmt_0d_2_length by lia; reflexivity].
  destruct H as [Eh H]; cbn [append] in H; injection H as H.
  apply append_inj_length in H;
    [|rewrite !fmt_0d_2_length by lia; reflexivity].
  destruct H as [Emi H]; cbn [append] in H; injection H as Es.
  apply (f_equal (digits_value 0)) in Ey, Emo, Ed, Eh, Emi, Es.
  rewrite !fmt_0d_4_value in Ey by lia.
  rewrite !fmt_0d_2_value in Emo, Ed, Eh, Emi, Es by lia.
  destruct t1, t2; cbn in *; congruence.
Qed.

Lemma time_stamp_injective_witness :
  valid_time (mkDateTime 2021 3 9 19 5 3) /\
  mkDateTime 2021 3 9 19 5 3 = mkDateTime 2021 3 9 19 5 3.
Proof.
  assert (H : valid_time (mkDateTime 2021 3 9 19 5 3))
    by (unfold valid_time; cbn; lia).
  split; [exact H|].
  exact (time_stamp_injective _ _ H H eq_refl).
Defined.

(** ** The console mirrors the files *)

Lemma cycle_events_console_lines (i : CycleInputs) :
  console_lines (cycle_events i) = cycle_console i.
Proof.
  unfold cycle_console, woke_up_line.
  unfold cycle_events, wake_events, sample_events, valve_events.
  destruct (irrigates i), (sd_ok i), (data_opens i), (log_opens i);
    reflexivity.
Qed.

(** X12: in a cycle with a plausible year the data record is printed on the
    console whether or not datalog.csv opened, and an irrigating cycle
    prints its "Valve on" and "Valve off" lines whether or not log.csv
    opened; every line that reaches a file is on the console verbatim, except
    that the "Valve off" line of log.csv is stamped by a clock read of its
    own (line 222), made after the one printed (line 219). *)
Theorem console_mirrors_files (i : CycleInputs) (s : string) :
  year_plausible (now_wake i) = true ->
  In (fileLine_of i) (console_lines (fst (loop i))) /\
  (irrigates i = true ->
   In (valve_on_line i) (console_lines (fst (loop i))) /\
   In (valve_off_line (now_off_console i)) (console_lines (fst (loop i)))) /\
  (In s (file_lines "datalog.csv" (fst (loop i))) ->
   In s (console_lines (fst (loop i)))) /\
  (In s (file_lines "log.csv" (fst (loop i))) ->
   In s (console_lines (fst (loop i))) \/
   s = valve_off_line (now_off_log i)).
Proof.
  intros Hy; rewrite (loop_cycle i Hy); cbn [fst].
  rewrite cycle_events_console_lines, cycle_events_datalog, cycle_events_log.
  unfold cycle_console.
  destruct (irrigates i), (sd_ok i), (data_opens i), (log_opens i);
    cbn [app In andb];
    repeat match goal with |- _ /\ _ => split end;
    intros; try discriminate;
    repeat match goal with
           | H : _ \/ _ |- _ => destruct H
           | H : False |- _ => destruct H
           end;
    subst; auto 12.
Qed.

Lemma console_mirrors_files_witness :
  year_plausible (now_wake cycle_no_card) = true /\
  In (fileLine_of cycle_no_card) (console_lines (fst (loop cycle_no_card))).
Proof.
  assert (H : year_plausible (now_wake cycle_no_card) = true) by reflexivity.
  split; [exact H|].
  exact (proj1 (console_mirrors_files cycle_no_card EmptyString H)).
Defined.

(** ** Time spent blocked *)

Lemma blocking_ms_app (a c : list Event) :
  blocking_ms (a ++ c) = blocking_ms a + blocking_ms c.
Proof.
  induction a as [|e a IH]; [reflexivity|].
  destruct e; cbn [blocking_ms app]; rewrite IH; lia.
Qed.

Lemma cycle_events_blocking (i : CycleInputs) :
  blocking_ms (cycle_events i) =
  sleepTime + 1000 + (if irrigates i then valveOnTimer else 0).
Proof.
  unfold cycle_events, wake_events, sample_events, valve_events.
  destruct (irrigates i), (sd_ok i), (data_opens i), (log_opens i);
    reflexivity.
Qed.

Lemma setup_blocking (b : BootInputs) :
  boot_rtc_ok b = true -> blocking_ms (fst (setup b)) = 1000.
Proof. intros E; rewrite (setup_rtc_found b E); reflexivity. Qed.

Lemma cycles_blocking (cyc : nat -> CycleInputs) (n : nat) :
  Z.of_nat n * 1801000
  <= blocking_ms (flat_map (fun k => cycle_events (cyc k)) (seq 0 n))
  <= Z.of_nat n * 1831000.
Proof.
  induction n as [|n IH]; [cbn; lia|].
  rewrite flat_map_seq_S, blocking_ms_app, cycle_events_blocking.
  unfold sleepTime, valveOnTimer.
  destruct (irrigates (cyc n)); lia.
Qed.

(** X13: a cycle that returns spends 1801000 ms in [delay] and deep sleep,
    and 30000 ms more when it irrigates, so the sampling period is never the
    bare [sleepTime]; [n] cycles after a good boot take between
    1000 + n * 1801000 and 1000 + n * 1831000 ms of blocked time. *)
Theorem cycle_period (b : BootInputs) (cyc : nat -> CycleInputs) (n : nat) :
  control (run b cyc n) = Cycling ->
  (forall k, (k < n)%nat ->
     blocking_ms (fst (loop (cyc k))) =
     1801000 + (if irrigates (cyc k) then 30000 else 0)) /\
  1000 + Z.of_nat n * 1801000
  <= blocking_ms (trace (run b cyc n))
  <= 1000 + Z.of_nat n * 1831000.
Proof.
  intros H; destruct (run_cycling b cyc n H) as (Hb & Hy & _ & ->).
  split.
  - intros k Hk; rewrite (loop_cycle _ (Hy k Hk)); cbn [fst].
    rewrite cycle_events_blocking; unfold sleepTime, valveOnTimer.
    destruct (irrigates (cyc k)); reflexivity.
  - rewrite blocking_ms_app, (setup_blocking b Hb).
    pose proof (cycles_blocking cyc n); lia.
Qed.

Lemma cycle_period_witness :
  control (run boot_fine cycle_card_gone 2) = Cycling /\
  blocking_ms (trace (run boot_fine cycle_card_gone 2)) = 3663000.
Proof.
  assert (H : control (run boot_fine cycle_card_gone 2) = Cycling)
    by reflexivity.
  split; [exact H|].
  destruct (cycle_period boot_fine cycle_card_gone 2 H) as [_ [H1 H2]].
  apply Z.le_antisymm; [exact H2|].
  vm_compute; discriminate.
Defined.
